(** * Client-side financial analytics of the finance tracker

    A shallow embedding of the analytics services of the repository:

    - the advanced analytics service ([detectAnomalies],
      [findDuplicateTransactions], [analyzeCategoryPatterns],
      [forecastCashFlow], [calculateTrend], [getSpendingHealthScore]);
    - the recurring-transaction service ([addDays], [addMonths],
      [getNextOccurrence], [detectRecurringTransactions],
      [checkAndCreateRecurringTransactions]);
    - of the notification service, the statistical test of
      [checkSpendingAnomalies], and [getNextEmiDate] with the test of
      [checkEmiReminders].

    Modelling conventions.

    - A JavaScript [number] is an IEEE double.  Where a result is decided by
      the rounding, the functions are embedded in doubles ([Double], binary64
      as the library describes it): [getSpendingHealthScore], which compares
      a computed rate with thresholds, and [Rounded.analyzeCategoryPatterns],
      whose sums and whose sort depend on the order of the rows.  An amount
      of a row is the decimal of the column ([Q]), and [Number] rounds it.
    - The other functions are embedded over exact rationals ([Q]), the
      rounding left out: JavaScript [===] on numbers is [Qeq_bool] there, and
      results are compared up to [Qeq].
    - [Math.sqrt] is not rational.  A comparison [x > m + 2 * Math.sqrt(v)] is
      decided on squares ([exceeds_two_sigma]), and [exceeds_two_sigma_sqrt]
      shows that this is the comparison with the real square root.  Records
      carry the variance; the standard deviation is its real square root
      ([stdDeviation]).
    - A [Date] is its time value, milliseconds since the epoch ([Z]).  The
      local time zone of the runtime is a fixed offset [tz], in minutes east
      of UTC (no daylight saving); the clock ([new Date()]) is the parameter
      [now].  A date column (["YYYY-MM-DD"]) is a calendar date [ISODate].
    - The rows returned by the data store are the input of every function
      ([None] for a [null] result); the query itself is not modelled.  The
      writes of [checkAndCreateRecurringTransactions] are the list of its
      calls, in their order.
    - An object used as a map is the list of its properties in creation
      order, and [Object.entries] lists array-index keys first. *)

From Stdlib Require Import ZArith QArith Qabs Qminmax Bool List String Ascii Lia Psatz.
From Stdlib Require Import Reals Qreals Permutation Sorted DecimalString FinFun.
From Stdlib Require Import SpecFloat.
Import ListNotations.

Open Scope Z_scope.

(** ** The [Date] object of the runtime *)

Module JSDate.

Definition msPerDay : Z := 86400000.
Definition msPerMinute : Z := 60000.

Definition Day (t : Z) : Z := t / msPerDay.
Definition TimeWithinDay (t : Z) : Z := t mod msPerDay.

(** Number of days from 1970-01-01 to the civil date [y]-[m]-[d]
    ([m] from 1 to 12) in the proleptic Gregorian calendar. *)
Definition days_from_civil (y m d : Z) : Z :=
  let y' := if m <=? 2 then y - 1 else y in
  let era := y' / 400 in
  let yoe := y' - era * 400 in
  let mp := if m >? 2 then m - 3 else m + 9 in
  let doy := (153 * mp + 2) / 5 + d - 1 in
  let doe := yoe * 365 + yoe / 4 - yoe / 100 + doy in
  era * 146097 + doe - 719468.

(** A calendar date: year, month (1 to 12), day of the month.  It is also
    the model of a ["YYYY-MM-DD"] string. *)
Record ISODate : Set := mkDate { year : Z; month : Z; day : Z }.

Definition civil_from_days (z : Z) : ISODate :=
  let z := z + 719468 in
  let era := z / 146097 in
  let doe := z - era * 146097 in
  let yoe := (doe - doe / 1460 + doe / 36524 - doe / 146096) / 365 in
  let y := yoe + era * 400 in
  let doy := doe - (365 * yoe + yoe / 4 - yoe / 100) in
  let mp := (5 * doy + 2) / 153 in
  let d := doy - (153 * mp + 2) / 5 + 1 in
  let m := if mp <? 10 then mp + 3 else mp - 9 in
  mkDate (if m <=? 2 then y + 1 else y) m d.

Definition ISODate_eqb (a b : ISODate) : bool :=
  (year a =? year b) && (month a =? month b) && (day a =? day b).

(** [MakeDay(year, month, date)] of ECMAScript, [month] counted from 0 and
    free to lie outside 0..11, [date] free to lie outside the month. *)
Definition MakeDay (y m dt : Z) : Z :=
  days_from_civil (y + m / 12) (m mod 12 + 1) 1 + dt - 1.

Definition MakeDate (dy time : Z) : Z := dy * msPerDay + time.

(** [new Date("YYYY-MM-DD")]: a date-only string is midnight UTC. *)
Definition parse (s : ISODate) : Z :=
  MakeDate (days_from_civil (year s) (month s) (day s)) 0.

(** [d.toISOString().split('T')[0]] *)
Definition toISODateString (t : Z) : ISODate := civil_from_days (Day t).

Section LocalTime.
(** Offset of the local time zone, in minutes east of UTC. *)
Variable tz : Z.

Definition LocalTime (t : Z) : Z := t + tz * msPerMinute.
Definition UTC (t : Z) : Z := t - tz * msPerMinute.

Definition getFullYear (t : Z) : Z := year (civil_from_days (Day (LocalTime t))).
(** [getMonth()] counts from 0. *)
Definition getMonth (t : Z) : Z := month (civil_from_days (Day (LocalTime t))) - 1.
Definition getDate (t : Z) : Z := day (civil_from_days (Day (LocalTime t))).

Definition setMonth (t m : Z) : Z :=
  let l := LocalTime t in
  UTC (MakeDate (MakeDay (getFullYear t) m (getDate t)) (TimeWithinDay l)).

Definition setDate (t dt : Z) : Z :=
  let l := LocalTime t in
  UTC (MakeDate (MakeDay (getFullYear t) (getMonth t) dt) (TimeWithinDay l)).
End LocalTime.

End JSDate.

Import JSDate.

(** ** Rows of the [transactions] table *)

Inductive TxnType : Set := income | expense | transfer.

Definition TxnType_eqb (a b : TxnType) : bool :=
  match a, b with
  | income, income | expense, expense | transfer, transfer => true
  | _, _ => false
  end.

(** A row with the columns the services select.  [category_name] is the
    joined [categories(name)]; [created_at] is a time value. *)
Record Transaction : Type := mkTxn {
  txn_id : string;
  amount : Q;
  txn_type : TxnType;
  merchant : option string;
  transaction_date : ISODate;
  category_id : option string;
  category_name : option string;
  created_at : Z;
  account_id : string
}.

Definition option_string_eqb (a b : option string) : bool :=
  match a, b with
  | Some x, Some y => String.eqb x y
  | None, None => true
  | _, _ => false
  end.

(** [s || fallback] on a nullable string: [null] and [""] are falsy. *)
Definition or_default (s : option string) (fallback : string) : string :=
  match s with
  | Some EmptyString | None => fallback
  | Some x => x
  end.

(** ** Numbers *)

Open Scope Q_scope.

Definition Qlt_bool (x y : Q) : bool := negb (Qle_bool y x).

(** [Math.max(0, x)] *)
Definition max0 (x : Q) : Q := if Qle_bool 0 x then x else 0.

(** [xs.reduce((a, b) => a + b, 0)] *)
Definition sum (xs : list Q) : Q := fold_left Qplus xs 0.

Definition len (xs : list Q) : Q := inject_Z (Z.of_nat (List.length xs)).

(** [xs.reduce((a, b) => a + b, 0) / xs.length] *)
Definition mean (xs : list Q) : Q := sum xs / len xs.

(** [xs.reduce((sq, n) => sq + Math.pow(n - avg, 2), 0) / xs.length] *)
Definition variance_about (avg : Q) (xs : list Q) : Q :=
  fold_left (fun sq n => sq + (n - avg) * (n - avg)) xs 0 / len xs.

(** [x > m + 2 * Math.sqrt(v)], for [v] a variance, decided without the
    square root: [x - m] is positive and its square exceeds [4 v]. *)
Definition exceeds_two_sigma (x m v : Q) : bool :=
  Qlt_bool 0 (x - m) && Qlt_bool (4 * v) ((x - m) * (x - m)).

(** ** Numbers of the runtime *)

(** A JavaScript [number] is an IEEE 754 binary64 value.  [spec_float] is
    the executable description of the standard in the library: every
    operation rounds to nearest, ties to even. *)
Module Double.

Definition prec : Z := 53.
Definition emax : Z := 1024.

Definition double : Set := spec_float.

Definition add : double -> double -> double := SFadd prec emax.
Definition sub : double -> double -> double := SFsub prec emax.
Definition mul : double -> double -> double := SFmul prec emax.
Definition div : double -> double -> double := SFdiv prec emax.
(** [Math.sqrt] *)
Definition sqrt : double -> double := SFsqrt prec emax.

(** [x < y], [x <= y] and [x === y]; each is false when an operand is NaN,
    and [+0] and [-0] are equal. *)
Definition ltb : double -> double -> bool := SFltb.
Definition leb : double -> double -> bool := SFleb.
Definition eqb : double -> double -> bool := SFeqb.

Definition zero : double := S754_zero false.

(** An integer literal. *)
Definition of_Z (z : Z) : double := binary_normalize prec emax z 0 false.

(** An integer of any size as a mantissa with exponent 0. *)
Definition integer (z : Z) : spec_float :=
  match z with
  | Z0 => S754_zero false
  | Zpos p => S754_finite false p 0
  | Zneg p => S754_finite true p 0
  end.

(** [Number(t.amount)]: the column is a decimal, and its [number] is the
    double nearest to it, the quotient of numerator and denominator rounded
    once. *)
Definition Number (q : Q) : double :=
  SFdiv prec emax (integer (Qnum q)) (integer (Zpos (Qden q))).

(** [Math.min(x, y)]: NaN when an operand is NaN, and [-0] is below [+0]. *)
Definition min (x y : double) : double :=
  match SFcompare x y with
  | None => S754_nan
  | Some Lt => x
  | Some Gt => y
  | Some Eq => match x with S754_zero false => y | _ => x end
  end.

End Double.

Declare Scope double_scope.
Delimit Scope double_scope with double.
Infix "+" := Double.add : double_scope.
Infix "-" := Double.sub : double_scope.
Infix "*" := Double.mul : double_scope.
Infix "/" := Double.div : double_scope.
Infix "<?" := Double.ltb : double_scope.
Infix "<=?" := Double.leb : double_scope.
Infix "=?" := Double.eqb : double_scope.

(** ** [getSpendingHealthScore] *)

Record HealthScore : Type := mkHealth {
  score : Z;
  category : string;
  breakdown : list (string * Double.double)
}.

(** [transactions.filter(t => t.type === ty)
      .reduce((sum, t) => sum + Number(t.amount), 0)] *)
Definition total (ty : TxnType) (transactions : list Transaction) : Double.double :=
  fold_left (fun sum t => sum + Double.Number (amount t))%double
    (filter (fun t => TxnType_eqb (txn_type t) ty) transactions) Double.zero.

(** The threshold ladder on the savings rate; [savingsRate >= 35] is
    [35 <= savingsRate]. *)
Definition ladder (savingsRate : Double.double) : Z * string :=
  if (Double.of_Z 35 <=? savingsRate)%double then (95%Z, "Excellent"%string)
  else if (Double.of_Z 25 <=? savingsRate)%double then (85%Z, "Very Good"%string)
  else if (Double.of_Z 15 <=? savingsRate)%double then (70%Z, "Good"%string)
  else if (Double.of_Z 5 <=? savingsRate)%double then (50%Z, "Fair"%string)
  else if (Double.of_Z 0 <=? savingsRate)%double then (30%Z, "Needs Improvement"%string)
  else (10%Z, "Critical"%string).

(** [data] is the result of the query: [None] is a [null] result. *)
Definition getSpendingHealthScore (data : option (list Transaction)) : HealthScore :=
  match data with
  | None | Some [] => mkHealth 0 "No Data" []
  | Some transactions =>
      let income := total income transactions in
      let expense := total expense transactions in
      if (income =? Double.of_Z 0)%double then mkHealth 0 "No Income" []
      else
        let savingsRate := ((income - expense) / income * Double.of_Z 100)%double in
        let '(score, category) := ladder savingsRate in
        mkHealth score category
          [("savingsRate"%string, savingsRate);
           ("expenseToIncome"%string, (expense / income * Double.of_Z 100)%double);
           ("monthlyIncome"%string, income);
           ("monthlyExpense"%string, expense)]
  end.

(** ** [detectAnomalies] *)

Inductive AlertType : Set := sudden_spike | unusual_category | duplicate | pattern_break.
Inductive Severity : Set := low | medium | high.

(** The text of an alert is a template filled with locale-formatted values;
    the model keeps the values. *)
Inductive Description : Type :=
| SpikeText (spent : Q) (on : option string) (average : Q)
| DuplicateText (merchants : list string) (amounts : Q).

Record AnomalyAlert : Type := mkAlert {
  alert_type : AlertType;
  severity : Severity;
  title : string;
  description : Description;
  alert_amount : Q;
  alert_date : ISODate
}.

(** The filter of [detectAnomalies]: same category, expense, another row,
    amount within 20% of the candidate's amount. *)
Definition similar_to (txn : Transaction) (transactions : list Transaction)
  : list Transaction :=
  filter (fun t =>
            option_string_eqb (category_id t) (category_id txn)
            && TxnType_eqb (txn_type t) expense
            && negb (String.eqb (txn_id t) (txn_id txn))
            && Qlt_bool (Qabs (amount t - amount txn)) (amount txn * 0.2))
         transactions.

(** The body of the loop over the recent transactions: the alerts pushed
    for the candidate [txn]. *)
Definition spike_alerts (transactions : list Transaction) (txn : Transaction)
  : list AnomalyAlert :=
  if negb (TxnType_eqb (txn_type txn) expense) then []
  else
    let similar := similar_to txn transactions in
    match similar with
    | [] => []
    | _ :: _ =>
        let amounts := amount txn :: map amount similar in
        let avgAmount := mean amounts in
        let variance := variance_about avgAmount amounts in
        if exceeds_two_sigma (amount txn) avgAmount variance then
          [mkAlert sudden_spike high
             ("Unusual spike in " ++ or_default (category_name txn) "category"
                ++ " spending")
             (SpikeText (amount txn) (merchant txn) avgAmount)
             (amount txn) (transaction_date txn)]
        else []
    end.

Record Duplicate : Type := mkDup {
  dup_merchants : list string;
  dup_amount : Q;
  dup_date : ISODate
}.

(** [`${t1.id}-${t2.id}`] *)
Definition pair_key (t1 t2 : Transaction) : string :=
  (txn_id t1 ++ "-" ++ txn_id t2)%string.

(** Difference of the creation times, in minutes. *)
Definition timeDiff (t1 t2 : Transaction) : Q :=
  Qabs (inject_Z (created_at t1 - created_at t2)) / inject_Z (1000 * 60).

Definition is_duplicate (t1 t2 : Transaction) : bool :=
  Qeq_bool (amount t1) (amount t2)
  && TxnType_eqb (txn_type t1) (txn_type t2)
  && Qlt_bool (timeDiff t1 t2) 60
  && Qlt_bool 0 (timeDiff t1 t2).

Definition duplicate_of (t1 t2 : Transaction) : Duplicate :=
  mkDup [or_default (merchant t1) "Unknown"; or_default (merchant t2) "Unknown"]
        (amount t1) (transaction_date t1).

(** State of the two loops: the findings pushed so far and the set
    [checked] of pair keys. *)
Definition DupState : Type := list Duplicate * list string.

(** The inner loop, [j] from [i + 1]: [t1] is [transactions[i]] and [rest]
    the rows after it. *)
Fixpoint scan_from (t1 : Transaction) (rest : list Transaction) (st : DupState)
  : DupState :=
  match rest with
  | [] => st
  | t2 :: rest' =>
      let '(duplicates, checked) := st in
      let key := pair_key t1 t2 in
      if existsb (String.eqb key) checked then scan_from t1 rest' st
      else if is_duplicate t1 t2 then
        scan_from t1 rest' (duplicates ++ [duplicate_of t1 t2], key :: checked)
      else scan_from t1 rest' st
  end.

(** The outer loop. *)
Fixpoint scan_all (transactions : list Transaction) (st : DupState) : DupState :=
  match transactions with
  | [] => st
  | t1 :: rest => scan_all rest (scan_from t1 rest st)
  end.

Definition findDuplicateTransactions (transactions : list Transaction)
  : list Duplicate :=
  fst (scan_all transactions ([], [])).

Definition duplicate_alert (dup : Duplicate) : AnomalyAlert :=
  mkAlert duplicate medium "Possible duplicate transaction detected"
    (DuplicateText (dup_merchants dup) (dup_amount dup))
    (dup_amount dup) (dup_date dup).

(** [data] is the result of the query, most recent transaction first. *)
Definition detectAnomalies (data : option (list Transaction)) : list AnomalyAlert :=
  match data with
  | None | Some [] => []
  | Some transactions =>
      let recentTransactions := firstn 10 transactions in
      flat_map (spike_alerts transactions) recentTransactions
        ++ map duplicate_alert (findDuplicateTransactions transactions)
  end.

(** The statistical test of [checkSpendingAnomalies], the notification path
    over the same table: the candidate against the mean and deviation of the
    earlier amounts of its category, at least three of them. *)
Definition checkSpendingAnomalies_fires (txn_amount : Q) (historical : list Q) : bool :=
  if (List.length historical <? 3)%nat then false
  else
    let avgAmount := mean historical in
    exceeds_two_sigma txn_amount avgAmount (variance_about avgAmount historical).

(** ** Objects used as maps, and [Array.prototype.sort] *)

(** A JavaScript object with string keys, as the list of its properties in
    creation order. *)
Definition JSObject (V : Type) : Type := list (string * V).

Fixpoint get {V : Type} (o : JSObject V) (k : string) : option V :=
  match o with
  | [] => None
  | (k', v) :: o' => if String.eqb k' k then Some v else get o' k
  end.

(** [o[k] = f(o[k])] for a present key, [o[k] = f(init)] for an absent one
    (created last). *)
Fixpoint update {V : Type} (o : JSObject V) (k : string) (init : V) (f : V -> V)
  : JSObject V :=
  match o with
  | [] => [(k, f init)]
  | (k', v) :: o' =>
      if String.eqb k' k then (k', f v) :: o' else (k', v) :: update o' k init f
  end.

Definition is_digit (c : ascii) : bool :=
  ((48 <=? nat_of_ascii c) && (nat_of_ascii c <=? 57))%nat.

Fixpoint digits_value (s : string) (acc : N) : option N :=
  match s with
  | EmptyString => Some acc
  | String c s' =>
      if is_digit c
      then digits_value s' (10 * acc + N.of_nat (nat_of_ascii c - 48))%N
      else None
  end.

(** A property key that is an array index: the canonical decimal string of
    an integer below 2^32 - 1. *)
Definition array_index (k : string) : option N :=
  match k with
  | EmptyString => None
  | String "0" EmptyString => Some 0%N
  | String "0" _ => None
  | _ =>
      match digits_value k 0 with
      | Some n => if (n <=? 4294967294)%N then Some n else None
      | None => None
      end
  end.

(** A stable sort: [insert_by lt x l] puts [x] after the elements [y] of
    the sorted [l] with [lt y x] and before the others. *)
Fixpoint insert_by {A : Type} (lt : A -> A -> bool) (x : A) (l : list A) : list A :=
  match l with
  | [] => [x]
  | y :: l' => if lt y x then y :: insert_by lt x l' else x :: l
  end.

Definition sort_by {A : Type} (lt : A -> A -> bool) (l : list A) : list A :=
  fold_right (insert_by lt) [] l.

Definition index_lt {V : Type} (a b : string * V) : bool :=
  match array_index (fst a), array_index (fst b) with
  | Some m, Some n => (m <? n)%N
  | _, _ => false
  end.

Definition is_index {V : Type} (a : string * V) : bool :=
  match array_index (fst a) with Some _ => true | None => false end.

(** [Object.entries(o)]: array-index keys in ascending order, then the other
    keys in creation order. *)
Definition entries {V : Type} (o : JSObject V) : list (string * V) :=
  sort_by index_lt (filter is_index o) ++ filter (fun a => negb (is_index a)) o.

(** [Object.keys(o).sort()] *)
Definition sorted_keys {V : Type} (o : JSObject V) : list string :=
  sort_by String.ltb (map fst (entries o)).

(** [xs.slice(-n)] *)
Definition slice_last {A : Type} (n : nat) (xs : list A) : list A :=
  skipn (List.length xs - n) xs.

(** ** [calculateTrend] *)

(** The loop of [calculateTrend] from index [i]: the running sums
    [(sumXY, sumX, sumX2, sumY)]. *)
Fixpoint trend_sums (i : nat) (values : list Q) (acc : Q * Q * Q * Q) : Q * Q * Q * Q :=
  match values with
  | [] => acc
  | v :: rest =>
      let '(sumXY, sumX, sumX2, sumY) := acc in
      let x := inject_Z (Z.of_nat i) in
      trend_sums (S i) rest (sumXY + x * v, sumX + x, sumX2 + x * x, sumY + v)
  end.

Definition calculateTrend (values : list Q) : Q :=
  if (List.length values <? 2)%nat then 0
  else
    let '(sumXY, sumX, sumX2, sumY) := trend_sums 0 values (0, 0, 0, 0) in
    let n := len values in
    let numerator := n * sumXY - sumX * sumY in
    let denominator := n * sumX2 - sumX * sumX in
    if Qeq_bool denominator 0 then 0
    else
      let slope := numerator / denominator in
      let avgY := sumY / n in
      if Qlt_bool 0 avgY then slope / avgY else 0.

(** ** [forecastCashFlow] *)

Record CashFlowForecast : Type := mkForecast {
  forecast_month : Z * Z;
  predictedIncome : Q;
  predictedExpense : Q;
  predictedSavings : Q;
  confidence : Q
}.

Record MonthTotals : Type := mkTotals { month_income : Q; month_expense : Q }.

Definition string_of_Z (z : Z) : string := NilZero.string_of_int (Z.to_int z).

(** [s.padStart(2, '0')] *)
Definition padStart2 (s : string) : string :=
  match String.length s with
  | O => "00"
  | S O => "0" ++ s
  | _ => s
  end.

Section Clock.
(** Offset of the local time zone (minutes east of UTC) and the time value
    of [new Date()]. *)
Variables (tz now : Z).

(** [`${date.getFullYear()}-${String(date.getMonth() + 1).padStart(2, '0')}`] *)
Definition monthKey (date : Z) : string :=
  (string_of_Z (getFullYear tz date) ++ "-"
     ++ padStart2 (string_of_Z (getMonth tz date + 1)))%string.

Definition add_to_month (txn : Transaction) (m : MonthTotals) : MonthTotals :=
  match txn_type txn with
  | income => mkTotals (month_income m + amount txn) (month_expense m)
  | expense => mkTotals (month_income m) (month_expense m + amount txn)
  | transfer => m
  end.

(** The bucketing loop of [forecastCashFlow]. *)
Definition monthlyData (transactions : list Transaction) : JSObject MonthTotals :=
  fold_left
    (fun data txn =>
       update data (monthKey (parse (transaction_date txn)))
              (mkTotals 0 0) (add_to_month txn))
    transactions [].

Definition values_of (proj : MonthTotals -> Q) (data : JSObject MonthTotals)
  : list Q :=
  map (fun m => match get data m with Some t => proj t | None => 0 end)
      (sorted_keys data).

(** The label of the month [i] months ahead: the local month (from 0) and
    year of [futureDate]. *)
Definition future_month (i : Z) : Z * Z :=
  let futureDate := setMonth tz now (getMonth tz now + i) in
  (getMonth tz futureDate, getFullYear tz futureDate).

Definition forecastCashFlow (data : option (list Transaction)) (monthsAhead : Z)
  : list CashFlowForecast :=
  match data with
  | None | Some [] => []
  | Some transactions =>
      let monthlyData := monthlyData transactions in
      let incomeValues := values_of month_income monthlyData in
      let expenseValues := values_of month_expense monthlyData in
      let avgIncome := sum incomeValues / len incomeValues in
      let avgExpense := sum expenseValues / len expenseValues in
      let recentIncomeTrend := calculateTrend (slice_last 3 incomeValues) in
      let recentExpenseTrend := calculateTrend (slice_last 3 expenseValues) in
      map (fun i =>
             let predictedIncome := max0 (avgIncome * (1 + recentIncomeTrend * 0.5)) in
             let predictedExpense := max0 (avgExpense * (1 + recentExpenseTrend * 0.5)) in
             let predictedSavings := predictedIncome - predictedExpense in
             mkForecast (future_month (Z.of_nat i))
                        predictedIncome predictedExpense predictedSavings 0.75)
          (seq 1 (Z.to_nat monthsAhead))
  end.
End Clock.

(** ** [analyzeCategoryPatterns] *)

Record CategoryPattern : Type := mkPattern {
  pattern_category : string;
  avgAmount : Q;
  variance : Q;
  monthlyTrend : list Q;
  pattern_confidence : Q
}.

(** The field [stdDeviation] of the source, [Math.sqrt(variance)]. *)
Definition stdDeviation (p : CategoryPattern) : R := sqrt (Q2R (variance p)).

(** [Math.min(x, 1)] *)
Definition min1 (x : Q) : Q := if Qle_bool x 1 then x else 1.

(** The grouping loop: the amounts of each category, in the order of the
    rows. *)
Definition categoryData (transactions : list Transaction) : JSObject (list Q) :=
  fold_left
    (fun data txn =>
       update data (or_default (category_name txn) "Uncategorized")
              [] (fun amounts => amounts ++ [amount txn]))
    transactions [].

Section PatternClock.
Variables (tz now : Z).

(** [monthStart] and [monthEnd] of the iteration [i] of the trend loop. *)
Definition month_window (i : Z) : Z * Z :=
  let monthStart := setDate tz (setMonth tz now (getMonth tz now - i)) 1 in
  let monthEnd := setDate tz (setMonth tz monthStart (getMonth tz monthStart + 1)) 0 in
  (monthStart, monthEnd).

(** The amounts [a] of a group kept for the month [i]: the date is the one
    of [transactions.find(t => Number(t.amount) === a)]. *)
Definition monthAmount (transactions : list Transaction) (amounts : list Q) (i : Z)
  : list Q :=
  let '(monthStart, monthEnd) := month_window i in
  filter (fun a =>
            match find (fun t => Qeq_bool (amount t) a) transactions with
            | Some txnMonth =>
                (monthStart <=? parse (transaction_date txnMonth))%Z
                && (parse (transaction_date txnMonth) <=? monthEnd)%Z
            | None => false
            end)
         amounts.

(** The trend loop, [i] from 0 to 5, each sum put in front. *)
Definition monthlyTrend_of (transactions : list Transaction) (amounts : list Q)
  : list Q :=
  fold_left
    (fun trend i => sum (monthAmount transactions amounts (Z.of_nat i)) :: trend)
    (seq 0 6) [].

Definition pattern_of (transactions : list Transaction) (entry : string * list Q)
  : list CategoryPattern :=
  let '(category, amounts) := entry in
  if (List.length amounts <? 2)%nat then []
  else
    let avgAmount := sum amounts / len amounts in
    let variance := variance_about avgAmount amounts in
    [mkPattern category avgAmount variance
               (monthlyTrend_of transactions amounts)
               (min1 (len amounts / 10))].

(** [(a, b) => b.avgAmount - a.avgAmount]: [y] goes before [x] when its
    average is larger. *)
Definition by_avg_desc (y x : CategoryPattern) : bool :=
  Qlt_bool (avgAmount x) (avgAmount y).

(** [data] is the result of the query, which selects the expenses. *)
Definition analyzeCategoryPatterns (data : option (list Transaction))
  : list CategoryPattern :=
  match data with
  | None | Some [] => []
  | Some transactions =>
      sort_by by_avg_desc
        (flat_map (pattern_of transactions) (entries (categoryData transactions)))
  end.
End PatternClock.

(** ** [analyzeCategoryPatterns] in the numbers of the runtime *)

(** The analyzer once more, with the sums, the means and the comparison of
    the sort in doubles, and with the members that the object [categoryData]
    inherits. *)
Module Rounded.
Import Double.

Record CategoryPattern : Type := mkPattern {
  category : string;
  avgAmount : double;
  stdDeviation : double;
  monthlyTrend : list double;
  confidence : double
}.

(** The members every object inherits from [Object.prototype]. *)
Definition Object_prototype : list string :=
  ["constructor"; "__defineGetter__"; "__defineSetter__"; "hasOwnProperty";
   "__lookupGetter__"; "__lookupSetter__"; "isPrototypeOf";
   "propertyIsEnumerable"; "toString"; "valueOf"; "__proto__";
   "toLocaleString"]%string.

Definition inherited (k : string) : bool := existsb (String.eqb k) Object_prototype.

(** One turn of the grouping loop.  For the name of an inherited member,
    [categoryData[category]] is that member: it is truthy, so no array is
    stored, and it has no [push], so the call throws ([None]). *)
Definition push_amount (data : option (JSObject (list double))) (txn : Transaction)
  : option (JSObject (list double)) :=
  match data with
  | None => None
  | Some data =>
      let category := or_default (category_name txn) "Uncategorized" in
      if inherited category then None
      else Some (update data category []
                        (fun amounts => amounts ++ [Number (amount txn)]))
  end.

Definition categoryData (transactions : list Transaction)
  : option (JSObject (list double)) :=
  fold_left push_amount transactions (Some []).

(** [xs.reduce((a, b) => a + b, 0)] *)
Definition sum (xs : list double) : double := fold_left add xs zero.

(** [xs.length] *)
Definition len (xs : list double) : double := of_Z (Z.of_nat (List.length xs)).

Section Runtime.
(** [Math.pow], which ECMAScript leaves to the implementation (an
    approximation of the power). *)
Variable pow : double -> double -> double.
(** The time zone and the clock. *)
Variables (tz now : Z).

(** The amounts [a] of a group kept for the month [i]: the date is the one
    of [transactions.find(t => Number(t.amount) === a)]. *)
Definition monthAmount (transactions : list Transaction) (amounts : list double) (i : Z)
  : list double :=
  let '(monthStart, monthEnd) := month_window tz now i in
  filter (fun a =>
            match find (fun t => eqb (Number (amount t)) a) transactions with
            | Some txnMonth =>
                (monthStart <=? parse (transaction_date txnMonth))%Z
                && (parse (transaction_date txnMonth) <=? monthEnd)%Z
            | None => false
            end)
         amounts.

(** The trend loop, [i] from 0 to 5, each sum put in front. *)
Definition monthlyTrend_of (transactions : list Transaction) (amounts : list double)
  : list double :=
  fold_left
    (fun trend i => sum (monthAmount transactions amounts (Z.of_nat i)) :: trend)
    (seq 0 6) [].

Definition pattern_of (transactions : list Transaction) (entry : string * list double)
  : list CategoryPattern :=
  let '(category, amounts) := entry in
  if (List.length amounts <? 2)%nat then []
  else
    let avgAmount := div (sum amounts) (len amounts) in
    let variance :=
      div (fold_left (fun sq n => add sq (pow (sub n avgAmount) (of_Z 2))) amounts zero)
          (len amounts) in
    [mkPattern category avgAmount (sqrt variance)
               (monthlyTrend_of transactions amounts)
               (min (div (len amounts) (of_Z 10)) (of_Z 1))].

(** [(a, b) => b.avgAmount - a.avgAmount] is negative for [(y, x)]: [y]
    goes before [x]. *)
Definition by_avg_desc (y x : CategoryPattern) : bool :=
  ltb (sub (avgAmount x) (avgAmount y)) zero.

(** [data] is the result of the query, which selects the expenses.  An
    exception of the grouping loop is caught, and what is returned is the
    sequence built so far, which is empty. *)
Definition analyzeCategoryPatterns (data : option (list Transaction))
  : list CategoryPattern :=
  match data with
  | None | Some [] => []
  | Some transactions =>
      match categoryData transactions with
      | None => []
      | Some data =>
          sort_by by_avg_desc (flat_map (pattern_of transactions) (entries data))
      end
  end.
End Runtime.

End Rounded.

(** ** The recurring-transaction service *)

Inductive Frequency : Set := daily | weekly | biweekly | monthly | quarterly | yearly.

Record RecurringRule : Type := mkRule {
  rule_merchant : string;
  rule_amount : Q;
  frequency : Frequency;
  start_date : ISODate;
  next_occurrence : ISODate;
  is_active : bool;
  auto_create : bool;
  rule_account_id : string;
  rule_category_id : option string
}.

(** The grouping key [`${txn.merchant}-${txn.amount}`], kept as the pair of
    its two parts: the text of the merchant ([null] prints as ["null"]) and
    the amount. *)
Definition group_key_eqb (a b : Transaction) : bool :=
  String.eqb (match merchant a with Some m => m | None => "null" end)
             (match merchant b with Some m => m | None => "null" end)
  && Qeq_bool (amount a) (amount b).

(** [merchantGroups] after the grouping loop: the groups in creation order,
    the rows of a group in the order of the input. *)
Fixpoint add_to_groups (groups : list (list Transaction)) (txn : Transaction)
  : list (list Transaction) :=
  match groups with
  | [] => [[txn]]
  | g :: groups' =>
      match g with
      | t :: _ =>
          if group_key_eqb t txn then (g ++ [txn]) :: groups'
          else g :: add_to_groups groups' txn
      | [] => g :: add_to_groups groups' txn
      end
  end.

Definition merchantGroups (transactions : list Transaction) : list (list Transaction) :=
  fold_left add_to_groups transactions [].

(** The loop over consecutive rows of a sorted group: the sum of the gaps
    in days, and their number. *)
Fixpoint day_diffs (txns : list Transaction) (acc : Q * Q) : Q * Q :=
  match txns with
  | t1 :: ((t2 :: _) as rest) =>
      let '(totalDayDiff, count) := acc in
      let date1 := parse (transaction_date t1) in
      let date2 := parse (transaction_date t2) in
      let dayDiff := Qabs (inject_Z (date2 - date1) / inject_Z (1000 * 60 * 60 * 24)) in
      day_diffs rest (totalDayDiff + dayDiff, count + 1)
  | _ => acc
  end.

Definition classify (avgDayDiff : Q) : Frequency :=
  if Qlt_bool avgDayDiff 2 then daily
  else if Qlt_bool avgDayDiff 10 then weekly
  else if Qlt_bool avgDayDiff 20 then biweekly
  else if Qlt_bool avgDayDiff 60 then monthly
  else if Qlt_bool avgDayDiff 120 then quarterly
  else yearly.

Section RecurringClock.
Variable tz : Z.

Definition addDays (date days : Z) : Z := setDate tz date (getDate tz date + days).

Definition addMonths (date months : Z) : Z := setMonth tz date (getMonth tz date + months).

(** [frequency] ranges over the six values of the column; the [default]
    branch of the source is for other strings. *)
Definition getNextOccurrence (lastDate : Z) (frequency : Frequency) : Z :=
  match frequency with
  | daily => addDays lastDate 1
  | weekly => addDays lastDate 7
  | biweekly => addDays lastDate 14
  | monthly => addMonths lastDate 1
  | quarterly => addMonths lastDate 3
  | yearly => addMonths lastDate 12
  end.

(** [(a, b) => new Date(a.transaction_date) - new Date(b.transaction_date)] *)
Definition by_date (y x : Transaction) : bool :=
  (parse (transaction_date y) <? parse (transaction_date x))%Z.

(** The body of the loop over the groups. *)
Definition suggestion_of (group : list Transaction) : list RecurringRule :=
  if (List.length group <? 2)%nat then []
  else
    let txns := sort_by by_date group in
    let '(totalDayDiff, count) := day_diffs txns (0, 0) in
    let avgDayDiff := totalDayDiff / count in
    let frequency := classify avgDayDiff in
    match txns with
    | first :: _ =>
        let lastTxn := last txns first in
        let nextDate := getNextOccurrence (parse (transaction_date lastTxn)) frequency in
        [mkRule (or_default (merchant first) "Unknown") (amount first) frequency
                (transaction_date first) (toISODateString nextDate)
                true false (account_id first) (category_id first)]
    | [] => []
    end.

(** [data] is the result of the query, which selects the expenses. *)
Definition detectRecurringTransactions (data : option (list Transaction))
  : list RecurringRule :=
  match data with
  | None => []
  | Some transactions => flat_map suggestion_of (merchantGroups transactions)
  end.
End RecurringClock.

(** ** Definitions of the specification, for comparison *)



(** The points [(i, y_i)] of a sequence, [i] counted from [start]. *)
Definition points_from (start : nat) (ys : list Q) : list (Q * Q) :=
  combine (map (fun i => inject_Z (Z.of_nat i)) (seq start (List.length ys))) ys.

(** The ordinary-least-squares slope of [ys] against the index 0..N-1, as
    the specification words it: the sum of the products of the deviations
    from the two means over the sum of the squared deviations of the
    index. *)
Definition ols_slope_spec (ys : list Q) : Q :=
  let pts := points_from 0 ys in
  let xbar := mean (map fst pts) in
  let ybar := mean (map snd pts) in
  sum (map (fun p => (fst p - xbar) * (snd p - ybar)) pts)
  / sum (map (fun p => (fst p - xbar) * (fst p - xbar)) pts).

(** The pairs [(transactions[i], transactions[j])], [i < j], in the order of
    the two loops. *)
Fixpoint all_pairs (transactions : list Transaction) : list (Transaction * Transaction) :=
  match transactions with
  | [] => []
  | t1 :: rest => map (pair t1) rest ++ all_pairs rest
  end.

(** The pair of the specification: same amount, same kind, creation times
    more than 0 and less than 60 minutes apart (in milliseconds). *)
Definition close_pair (p : Transaction * Transaction) : bool :=
  let '(t1, t2) := p in
  Qeq_bool (amount t1) (amount t2)
  && TxnType_eqb (txn_type t1) (txn_type t2)
  && (0 <? Z.abs (created_at t1 - created_at t2))%Z
  && (Z.abs (created_at t1 - created_at t2) <? 60 * 60000)%Z.

(** The key of a pair of rows. *)
Definition key_of (p : Transaction * Transaction) : string := pair_key (fst p) (snd p).

(** The keys of different pairs of rows are different, as they are when the
    rows have their own identifiers of one length (UUIDs). *)
Definition distinct_pair_keys (transactions : list Transaction) : Prop :=
  NoDup (map key_of (all_pairs transactions)).

Definition is_duplicate_alert (a : AnomalyAlert) : bool :=
  match alert_type a with duplicate => true | _ => false end.

(** The category label of a row. *)
Definition label (t : Transaction) : string :=
  or_default (category_name t) "Uncategorized".

(** The amounts of the rows of a category, in the order of the rows. *)
Definition amounts_of (c : string) (transactions : list Transaction) : list Q :=
  map amount (filter (fun t => String.eqb (label t) c) transactions).

(** The calendar month (year, month from 0) [i] months before the local
    month of the clock. *)
Definition calendar_month (tz now i : Z) : Z * Z :=
  let months := (getFullYear tz now * 12 + getMonth tz now - i)%Z in
  ((months / 12)%Z, (months mod 12)%Z).

Definition in_calendar_month (ym : Z * Z) (t : Transaction) : bool :=
  ((year (transaction_date t) =? fst ym) && (month (transaction_date t) - 1 =? snd ym))%Z.

(** The monthly trend of a category as the specification words it: for each
    of the six calendar months up to the current one, most recent last, the
    sum of the amounts of the rows of the category dated in that month. *)
Definition monthlyTrend_spec (tz now : Z) (c : string) (transactions : list Transaction)
  : list Q :=
  map (fun i =>
         sum (map amount
                  (filter (fun t => String.eqb (label t) c
                                    && in_calendar_month (calendar_month tz now i) t)
                          transactions)))
      [5; 4; 3; 2; 1; 0]%Z.

(** ** Sample rows *)

(** Indian Standard Time, UTC+5:30. *)
Definition IST : Z := 330%Z.

(** 20 May 2024, 10:00 UTC. *)
Definition may_20 : Z := (parse (mkDate 2024 5 20) + 10 * 3600000)%Z.

Definition salary (a : Q) : Transaction :=
  mkTxn "s1" a income (Some "Employer"%string) (mkDate 2024 5 1) None None 0 "acc".

Definition spending (a : Q) : Transaction :=
  mkTxn "e1" a expense (Some "Shop"%string) (mkDate 2024 5 2) None None 0 "acc".

(** A food expense of the given amount; [n] numbers the row and the day. *)
Definition food (n : Z) (a : Q) : Transaction :=
  mkTxn ("t" ++ string_of_Z n) a expense (Some "Grocer"%string)
        (mkDate 2024 5 n) (Some "c-food"%string) (Some "Food"%string)
        (n * 86400000) "acc".

(** The category history 100, 102, 98, 101, most recent first. *)
Definition history : list Transaction :=
  [food 4 100; food 3 102; food 2 98; food 1 101].

(** A candidate of amount 100 with its only similar transaction, of amount
    110. *)
Definition one_similar : list Transaction := [food 5 100; food 4 110].

(** Six months, January to June 2024, each with one salary of 50000 and one
    expense of 40000; most recent first. *)
Definition six_months : list Transaction :=
  flat_map (fun m =>
              [mkTxn ("s" ++ string_of_Z m) 50000 income (Some "Employer"%string)
                     (mkDate 2024 m 10) None None 0 "acc";
               mkTxn ("e" ++ string_of_Z m) 40000 expense (Some "Shop"%string)
                     (mkDate 2024 m 12) None None 0 "acc"])
           [6; 5; 4; 3; 2; 1]%Z.

(** Two purchases of 250, the second created [minutes] after the first. *)
Definition purchase_pair (minutes : Z) : list Transaction :=
  [mkTxn "a1" 250 expense (Some "Cafe"%string) (mkDate 2024 5 2) None None
         0 "acc";
   mkTxn "a2" 250 expense (Some "Cafe"%string) (mkDate 2024 5 2) None None
         (minutes * 60000) "acc"].

(** A Netflix charge of 499 on the given date. *)
Definition netflix (n : Z) (date : ISODate) : Transaction :=
  mkTxn ("n" ++ string_of_Z n) 499 expense (Some "Netflix"%string) date
        (Some "c-ent"%string) (Some "Entertainment"%string) 0 "acc".

(** The first day of the month [k] months after month [m] of year [y]. *)
Definition first_of_month (y m k : Z) : ISODate :=
  mkDate (y + (m - 1 + k) / 12) ((m - 1 + k) mod 12 + 1) 1.

(** Charges on the 1st of four consecutive months from month [m] of year
    [y], most recent first. *)
Definition netflix_firsts (y m : Z) : list Transaction :=
  [netflix 4 (first_of_month y m 3); netflix 3 (first_of_month y m 2);
   netflix 2 (first_of_month y m 1); netflix 1 (first_of_month y m 0)].

(** Charges on 31 December 2023 and on 31 January 2024. *)
Definition netflix_month_end : list Transaction :=
  [netflix 2 (mkDate 2024 1 31); netflix 1 (mkDate 2023 12 31)].

(** An expense of a named category. *)
Definition cat_row (id name : string) (a : Q) (date : ISODate) : Transaction :=
  mkTxn id a expense (Some "Shop"%string) date
        (Some ("c-" ++ name)%string) (Some name) 0 "acc".

(** Two categories with the same amounts, all dated 10 May 2024. *)
Definition tied : list Transaction :=
  [cat_row "r1" "Food" 10 (mkDate 2024 5 10); cat_row "r2" "Food" 10 (mkDate 2024 5 10);
   cat_row "r3" "Fuel" 10 (mkDate 2024 5 10); cat_row "r4" "Fuel" 10 (mkDate 2024 5 10)].

(** The same rows, the second category first. *)
Definition tied_reordered : list Transaction :=
  [cat_row "r3" "Fuel" 10 (mkDate 2024 5 10); cat_row "r4" "Fuel" 10 (mkDate 2024 5 10);
   cat_row "r1" "Food" 10 (mkDate 2024 5 10); cat_row "r2" "Food" 10 (mkDate 2024 5 10)].

(** Two food expenses of 100, one in May and one in April 2024. *)
Definition groceries : list Transaction :=
  [cat_row "g2" "Food" 100 (mkDate 2024 5 10); cat_row "g1" "Food" 100 (mkDate 2024 4 10)].

(** Rent of 40 on 15 May and of 30 on 1 May 2024. *)
Definition rents : list Transaction :=
  [cat_row "h2" "Rent" 40 (mkDate 2024 5 15); cat_row "h1" "Rent" 30 (mkDate 2024 5 1)].

(** Food of 0.10, 0.20 and 0.30 and two other expenses of 0.20. *)
Definition dimes : list Transaction :=
  [cat_row "d1" "Food" 0.10 (mkDate 2024 5 11); cat_row "d2" "Food" 0.20 (mkDate 2024 5 12);
   cat_row "d3" "Food" 0.30 (mkDate 2024 5 13); cat_row "d4" "Misc" 0.20 (mkDate 2024 5 14);
   cat_row "d5" "Misc" 0.20 (mkDate 2024 5 15)].

(** The same rows with the food in the opposite order. *)
Definition dimes_reordered : list Transaction :=
  [cat_row "d3" "Food" 0.30 (mkDate 2024 5 13); cat_row "d2" "Food" 0.20 (mkDate 2024 5 12);
   cat_row "d1" "Food" 0.10 (mkDate 2024 5 11); cat_row "d4" "Misc" 0.20 (mkDate 2024 5 14);
   cat_row "d5" "Misc" 0.20 (mkDate 2024 5 15)].

(** Two expenses of a category named like a member of every object, and two
    of food. *)
Definition constructors : list Transaction :=
  [cat_row "k1" "constructor" 10 (mkDate 2024 5 10);
   cat_row "k2" "constructor" 20 (mkDate 2024 5 11);
   cat_row "k3" "Food" 30 (mkDate 2024 5 12); cat_row "k4" "Food" 40 (mkDate 2024 5 13)].


(** ** Auxiliary definitions of the proofs *)

(** The sums of a list of points that the slope is made of. *)
Definition Sx (pts : list (Q * Q)) : Q := sum (map fst pts).
Definition Sy (pts : list (Q * Q)) : Q := sum (map snd pts).
Definition Sxy (pts : list (Q * Q)) : Q := sum (map (fun p => fst p * snd p) pts).
Definition Sxx (pts : list (Q * Q)) : Q := sum (map (fun p => fst p * fst p) pts).

(** The length of a list, as a number. *)
Definition count {A : Type} (l : list A) : Q := inject_Z (Z.of_nat (List.length l)).

(** The [n] integers from [lo] on. *)
Fixpoint Z_range (lo : Z) (n : nat) : list Z :=
  match n with
  | O => []
  | S n' => lo :: Z_range (lo + 1) n'
  end.

Definition is_monthly (f : Frequency) : bool :=
  match f with monthly => true | _ => false end.

(** The check of the suggestions for [netflix_firsts y m] in UTC: one
    suggestion, monthly, due on the 1st of the following month. *)
Definition firsts_ok (y m : Z) : bool :=
  match detectRecurringTransactions 0 (Some (netflix_firsts y m)) with
  | [r] =>
      is_monthly (frequency r)
      && ISODate_eqb (next_occurrence r) (first_of_month y m 4)
      && ISODate_eqb (start_date r) (first_of_month y m 0)
  | _ => false
  end.

(** The savings rate of a month, as the score computes it. *)
Definition savingsRate_of (transactions : list Transaction) : Double.double :=
  let inc := total income transactions in
  ((inc - total expense transactions) / inc * Double.of_Z 100)%double.

(** The category and the confidence of an aggregate. *)
Definition reported (p : Rounded.CategoryPattern) : string * Double.double :=
  (Rounded.category p, Rounded.confidence p).

(** The rows of a category. *)
Definition rows_of (c : string) (transactions : list Transaction) : list Transaction :=
  filter (fun t => String.eqb (label t) c) transactions.

(** A row whose category has the name of an inherited member. *)
Definition inherited_label (t : Transaction) : bool := Rounded.inherited (label t).

(** The groups of amounts, converted to doubles. *)
Definition as_doubles (o : JSObject (list Q)) : JSObject (list Double.double) :=
  map (fun e => (fst e, map Double.Number (snd e))) o.

(** The confidence of a group of [n] amounts, [Math.min(n / 10, 1)]. *)
Definition confidence_at (n : Z) : Double.double :=
  Double.min (Double.of_Z n / Double.of_Z 10)%double (Double.of_Z 1).

Definition confidence_of (n : nat) : Double.double := confidence_at (Z.of_nat n).

(** The double 1. *)
Definition is_one (d : Double.double) : bool :=
  match d with
  | S754_finite false m e => (m =? 4503599627370496)%positive && (e =? -52)%Z
  | _ => false
  end.

(** What is reported of a group, from its category and its size. *)
Definition reported_of (e : string * nat) : list (string * Double.double) :=
  if (snd e <? 2)%nat then [] else [(fst e, confidence_of (snd e))].

(** The categories of the rows with the number of rows of each. *)
Definition group_sizes (transactions : list Transaction) : list (string * nat) :=
  map (fun e => (fst e, List.length (snd e))) (categoryData transactions).

(** ** Further sample rows and definitions *)


(** ** Sequences for the trend *)

(** The sequence [a], [a + d], [a + 2 d], ... of [n] values. *)
Definition progression (a d : Q) (n : nat) : list Q :=
  map (fun i => a + d * inject_Z (Z.of_nat i)) (seq 0 n).

(** The time value of the date of a row. *)
Definition date_of (t : Transaction) : Z := parse (transaction_date t).

(** Charges on 1 January, 2 January and 1 March 2024: gaps of 1 and 59
    days. *)
Definition irregular : list Transaction :=
  [netflix 3 (mkDate 2024 3 1); netflix 2 (mkDate 2024 1 2); netflix 1 (mkDate 2024 1 1)].

(** ** Calendar dates *)

(** A date that exists in the calendar: the month is one of the twelve and
    the day is not past the end of the month (the conversion to days and
    back returns the date). *)
Definition is_calendar_date (dt : ISODate) : bool :=
  ((1 <=? month dt) && (month dt <=? 12))%Z
  && ISODate_eqb (civil_from_days (days_from_civil (year dt) (month dt) (day dt))) dt.

(** The date with the same day of the month, [k] months after [dt]. *)
Definition months_later (k : Z) (dt : ISODate) : ISODate :=
  mkDate (year dt + (month dt - 1 + k) / 12) ((month dt - 1 + k) mod 12 + 1) (day dt).

(** The number of days of the day-based frequencies and of months of the
    month-based ones. *)
Definition period_days (f : Frequency) : option Z :=
  match f with
  | daily => Some 1%Z | weekly => Some 7%Z | biweekly => Some 14%Z
  | _ => None
  end.

Definition period_months (f : Frequency) : option Z :=
  match f with
  | monthly => Some 1%Z | quarterly => Some 3%Z | yearly => Some 12%Z
  | _ => None
  end.

(** ** [getNextEmiDate] and [checkEmiReminders] *)

Section EmiClock.
(** The time zone and the clock. *)
Variables (tz now : Z).



End EmiClock.



(** ** [checkAndCreateRecurringTransactions] *)

(** A row of [recurring_rules]. *)
Record StoredRule : Type := mkStored {
  stored_id : string;
  stored : RecurringRule;
  end_date : option ISODate
}.

(** The row inserted into [transactions] for a rule. *)
Record CreatedTransaction : Type := mkCreated {
  created_account_id : string;
  created_category_id : option string;
  created_amount : Q;
  created_merchant : string;
  created_date : ISODate;
  created_rule_id : string
}.

(** The writes to the data store, in the order of the calls:
    [update({ is_active: false }).eq('id', id)], an [insert] that succeeded,
    and [update({ next_occurrence }).eq('id', id)]. *)
Inductive Write : Type :=
| Deactivate (id : string)
| Insert (row : CreatedTransaction)
| Advance (id : string) (next : ISODate).

Record RecurringTransactionCheck : Type := mkCheck {
  rulesTriggered : list StoredRule;
  transactionsCreated : nat;
  failedCreations : nat
}.

Section Scheduler.
(** The time zone and the clock. *)
Variables (tz now : Z).
(** The outcome of an insert: [true] when the data store reports an
    error. *)
Variable insert_error : CreatedTransaction -> bool.

(** [endDate && nextDate > endDate] *)
Definition expired (rule : StoredRule) : bool :=
  match end_date rule with
  | Some e => (parse e <? parse (next_occurrence (stored rule)))%Z
  | None => false
  end.

Definition created_for (rule : StoredRule) : CreatedTransaction :=
  mkCreated (rule_account_id (stored rule)) (rule_category_id (stored rule))
            (rule_amount (stored rule)) (rule_merchant (stored rule))
            (toISODateString now) (stored_id rule).

(** The body of the loop over the rules, on the result and the writes made
    so far. *)
Definition check_rule (st : RecurringTransactionCheck * list Write) (rule : StoredRule)
  : RecurringTransactionCheck * list Write :=
  let '(result, writes) := st in
  if expired rule then (result, writes ++ [Deactivate (stored_id rule)])
  else
    let nextDate := parse (next_occurrence (stored rule)) in
    let '(result, writes) :=
      if auto_create (stored rule) then
        if insert_error (created_for rule)
        then (mkCheck (rulesTriggered result) (transactionsCreated result)
                      (S (failedCreations result)), writes)
        else (mkCheck (rulesTriggered result) (S (transactionsCreated result))
                      (failedCreations result), writes ++ [Insert (created_for rule)])
      else (result, writes) in
    let nextOccurrence := getNextOccurrence tz nextDate (frequency (stored rule)) in
    (mkCheck (rulesTriggered result ++ [rule]) (transactionsCreated result)
             (failedCreations result),
     writes ++ [Advance (stored_id rule) (toISODateString nextOccurrence)]).

(** [query] is the result of the query for the active rules that are due:
    [None] for an error or a [null] result. *)
Definition checkAndCreateRecurringTransactions (query : option (list StoredRule))
  : RecurringTransactionCheck * list Write :=
  match query with
  | None => (mkCheck [] 0 0, [])
  | Some rules => fold_left check_rule rules (mkCheck [] 0 0, [])
  end.
End Scheduler.

(** The writes made for one rule. *)
Definition writes_for (tz now : Z) (insert_error : CreatedTransaction -> bool)
           (rule : StoredRule) : list Write :=
  if expired rule then [Deactivate (stored_id rule)]
  else
    (if auto_create (stored rule) && negb (insert_error (created_for now rule))
     then [Insert (created_for now rule)] else [])
    ++ [Advance (stored_id rule)
                (toISODateString
                   (getNextOccurrence tz (parse (next_occurrence (stored rule)))
                                      (frequency (stored rule))))].

(** The rules of a list for which a transaction is due: not expired, with
    automatic creation. *)
Definition to_create (rules : list StoredRule) : list StoredRule :=
  filter (fun r => negb (expired r) && auto_create (stored r)) rules.

Definition is_insert (w : Write) : bool :=
  match w with Insert _ => true | _ => false end.

(** A rule of the data store, due on the given date. *)
Definition stored_netflix (id : string) (due : ISODate) (f : Frequency)
           (auto : bool) (until : option ISODate) : StoredRule :=
  mkStored id (mkRule "Netflix" 499 f (mkDate 2024 1 1) due true auto "acc" None) until.

(** * Properties *)

(** ** Comparisons *)

Lemma Qlt_bool_iff (x y : Q) : Qlt_bool x y = true <-> x < y.
Proof.
  unfold Qlt_bool. rewrite negb_true_iff.
  split; intro H.
  - apply Qnot_le_lt. intro Hle. apply Qle_bool_iff in Hle. congruence.
  - destruct (Qle_bool y x) eqn:E; [|reflexivity].
    apply Qle_bool_iff in E. exfalso. exact (Qlt_not_le _ _ H E).
Qed.

Lemma Qlt_bool_false_iff (x y : Q) : Qlt_bool x y = false <-> y <= x.
Proof.
  unfold Qlt_bool. rewrite negb_false_iff. apply Qle_bool_iff.
Qed.

Lemma Qle_bool_false_iff (x y : Q) : Qle_bool x y = false <-> y < x.
Proof.
  rewrite <- Qlt_bool_iff. unfold Qlt_bool.
  destruct (Qle_bool x y); simpl; split; congruence.
Qed.

(** ** The order of the doubles *)

Section DoubleOrder.
Import Double.




Lemma leb_trans (x y z : double) : leb x y = true -> leb y z = true -> leb x z = true.
Proof.
  unfold leb, SFleb.
  destruct x as [[]|[]| |[] m1 e1], y as [[]|[]| |[] m2 e2], z as [[]|[]| |[] m3 e3];
    simpl; try congruence;
    change (PosDef.Pos.compare_cont Eq m1 m2) with (Pos.compare m1 m2);
    change (PosDef.Pos.compare_cont Eq m2 m3) with (Pos.compare m2 m3);
    change (PosDef.Pos.compare_cont Eq m1 m3) with (Pos.compare m1 m3);
    destruct (Z.compare_spec e1 e2), (Z.compare_spec e2 e3), (Z.compare_spec e1 e3);
    try congruence; try lia; subst;
    destruct (Pos.compare_spec m1 m2), (Pos.compare_spec m2 m3), (Pos.compare_spec m1 m3);
    simpl; try congruence; try lia.
Qed.



End DoubleOrder.

(** ** The health score *)


Lemma health_score_of_ladder (t : Transaction) (ts : list Transaction) :
  (total income (t :: ts) =? Double.of_Z 0)%double = false ->
  let r := getSpendingHealthScore (Some (t :: ts)) in
  (score r, category r) = ladder (savingsRate_of (t :: ts)).
Proof.
  intros Hne. unfold getSpendingHealthScore, savingsRate_of.
  rewrite Hne. destruct (ladder _) as [s c]. reflexivity.
Qed.



(** Income 50000 and expense 49000: savings rate 2, score 30. *)
Example health_score_needs_improvement :
  let r := getSpendingHealthScore (Some [salary 50000; spending 49000]) in
  score r = 30%Z /\ category r = "Needs Improvement"%string.
Proof. vm_compute. split; reflexivity. Qed.

Example health_score_no_income :
  let r := getSpendingHealthScore (Some [spending 49000]) in
  score r = 0%Z /\ category r = "No Income"%string.
Proof. vm_compute. split; reflexivity. Qed.

(** The band is decided by the computed rate.  Income 20002 and expense
    17001.70 save 15 percent of the income exactly; the computed rate is
    below 15, and the score is 50, Fair. *)
Example health_score_below_threshold :
  let r := getSpendingHealthScore (Some [salary 20002; spending 17001.70]) in
  (20002 - 17001.70) / 20002 * 100 == 15
  /\ (savingsRate_of [salary 20002; spending 17001.70] <? Double.of_Z 15)%double = true
  /\ score r = 50%Z /\ category r = "Fair"%string.
Proof. vm_compute. repeat split. Qed.

(** Income 22 and expense 14.3 save 35 percent of the income; the computed
    rate is 35, and the score is 95, Excellent. *)
Example health_score_on_threshold :
  let r := getSpendingHealthScore (Some [salary 22; spending 14.3]) in
  savingsRate_of [salary 22; spending 14.3] = Double.of_Z 35
  /\ score r = 95%Z /\ category r = "Excellent"%string.
Proof. vm_compute. repeat split. Qed.

(** ** Empty input *)

(** C8.  On an empty result of the query, and on a null one, the anomaly
    detector, the pattern analyzer and the cash-flow forecaster return the
    empty sequence, whatever the clock and the horizon; the health scorer
    returns score 0 and the recurring detector no suggestion.  The functions
    are total, so no input makes them fail. *)
Theorem empty_input_empty_output (tz now monthsAhead : Z) :
  detectAnomalies (Some []) = [] /\ detectAnomalies None = []
  /\ analyzeCategoryPatterns tz now (Some []) = []
  /\ analyzeCategoryPatterns tz now None = []
  /\ forecastCashFlow tz now (Some []) monthsAhead = []
  /\ forecastCashFlow tz now None monthsAhead = []
  /\ score (getSpendingHealthScore (Some [])) = 0%Z
  /\ detectRecurringTransactions tz (Some []) = [].
Proof. repeat split. Qed.

(** ** The spike test *)

Lemma fold_plus_acc (l : list Q) (a : Q) :
  fold_left Qplus l a == a + fold_left Qplus l 0.
Proof.
  revert a. induction l as [|y l IH]; intros a; simpl.
  - ring.
  - rewrite (IH (a + y)), (IH (0 + y)). ring.
Qed.

Lemma sum_cons (x : Q) (xs : list Q) : sum (x :: xs) == x + sum xs.
Proof. unfold sum. simpl. rewrite fold_plus_acc. ring. Qed.

Lemma Q2R_4 : Q2R 4 = 4%R.
Proof. unfold Q2R. simpl. lra. Qed.

(** [exceeds_two_sigma] is the comparison [x > m + 2 * sqrt v] of the
    source. *)
Lemma exceeds_two_sigma_sqrt (x m v : Q) :
  0 <= v ->
  exceeds_two_sigma x m v = true <-> (Q2R x > Q2R m + 2 * sqrt (Q2R v))%R.
Proof.
  intros Hv. apply Qle_Rle in Hv. replace (Q2R 0) with 0%R in Hv by (unfold Q2R; simpl; lra).
  unfold exceeds_two_sigma. rewrite andb_true_iff, !Qlt_bool_iff.
  set (d := (Q2R x - Q2R m)%R).
  assert (Hs : (0 <= sqrt (Q2R v))%R) by apply sqrt_pos.
  assert (Hsq : (sqrt (Q2R v) * sqrt (Q2R v) = Q2R v)%R) by (apply sqrt_sqrt; exact Hv).
  split.
  - intros [H1 H2]. apply Qlt_Rlt in H1, H2.
    rewrite Q2R_minus in H1. replace (Q2R 0) with 0%R in H1 by (unfold Q2R; simpl; lra).
    rewrite !Q2R_mult, !Q2R_minus, Q2R_4 in H2. fold d in H1, H2.
    assert (2 * sqrt (Q2R v) < d)%R; [|unfold d in *; lra].
    apply Rnot_le_lt. intro Hle.
    assert (d * d <= (2 * sqrt (Q2R v)) * (2 * sqrt (Q2R v)))%R by nra.
    nra.
  - intros H. assert (Hd : (2 * sqrt (Q2R v) < d)%R) by (unfold d; lra).
    split; apply Rlt_Qlt.
    + rewrite Q2R_minus. replace (Q2R 0) with 0%R by (unfold Q2R; simpl; lra).
      fold d. lra.
    + rewrite !Q2R_mult, !Q2R_minus, Q2R_4. fold d. nra.
Qed.

(** C2, evaluated.  With the history 100, 102, 98, 101 of the category, a
    new expense of 500 has no similar transaction (none lies within 20% of
    500), so [detectAnomalies] emits nothing for it; a new expense of 103
    emits nothing either.  The notification path [checkSpendingAnomalies],
    which compares with the whole history, fires on 500 and not on 103. *)
Theorem anomaly_history_example :
  similar_to (food 5 500) (food 5 500 :: history) = []
  /\ detectAnomalies (Some (food 5 500 :: history)) = []
  /\ detectAnomalies (Some (food 5 103 :: history)) = []
  /\ checkSpendingAnomalies_fires 500 (map amount history) = true
  /\ checkSpendingAnomalies_fires 103 (map amount history) = false.
Proof. vm_compute. repeat split. Qed.

Lemma Q2R_2 : Q2R 2 = 2%R.
Proof. unfold Q2R. simpl. lra. Qed.

Lemma pair_mean (T s : Q) : mean [T; s] == (T + s) / 2.
Proof. unfold mean, sum, len. simpl. field. Qed.

Lemma pair_variance (T s : Q) :
  variance_about (mean [T; s]) [T; s] == (T - s) * (T - s) / 4.
Proof. unfold variance_about, mean, sum, len. simpl. field. Qed.

Lemma Qsquare_nonneg (x : Q) : 0 <= x * x.
Proof.
  assert (H := Qpower.Qsqr_nonneg x).
  assert (E : x ^ 2 == x * x) by (simpl; ring).
  rewrite E in H. exact H.
Qed.

Lemma pair_never_exceeds (T s : Q) :
  exceeds_two_sigma T (mean [T; s]) (variance_about (mean [T; s]) [T; s]) = false.
Proof.
  unfold exceeds_two_sigma. apply andb_false_iff. right.
  apply Qlt_bool_false_iff.
  rewrite pair_variance, pair_mean.
  assert (H : 0 <= (T - s) * (T - s)) by apply Qsquare_nonneg.
  assert (E1 : (T - (T + s) / 2) * (T - (T + s) / 2) == (T - s) * (T - s) / 4) by field.
  assert (E2 : 4 * ((T - s) * (T - s) / 4) == (T - s) * (T - s)) by field.
  rewrite E1, E2. set (X := (T - s) * (T - s)) in *.
  apply Qle_shift_div_r; [reflexivity|]. lra.
Qed.

Lemma single_similar_no_alert
  (transactions : list Transaction) (txn s : Transaction) :
  similar_to txn transactions = [s] -> spike_alerts transactions txn = [].
Proof.
  intros Hsim. unfold spike_alerts. rewrite Hsim.
  destruct (negb (TxnType_eqb (txn_type txn) expense)); [reflexivity|].
  simpl map. rewrite pair_never_exceeds. reflexivity.
Qed.

(** C10.  A candidate with exactly one similar transaction [s] never gets a
    spike alert: over the two amounts the mean plus twice the deviation is
    [(T + s) / 2 + |T - s|], which is at least [T]. *)
Theorem single_similar_never_spikes
  (transactions : list Transaction) (txn s : Transaction) :
  similar_to txn transactions = [s] ->
  spike_alerts transactions txn = []
  /\ (let T := amount txn in
      let m := mean [T; amount s] in
      let v := variance_about m [T; amount s] in
      Q2R m + 2 * sqrt (Q2R v)
      = (Q2R T + Q2R (amount s)) / 2 + Rabs (Q2R T - Q2R (amount s))
      /\ Q2R T <= Q2R m + 2 * sqrt (Q2R v))%R.
Proof.
  intros Hsim. split.
  - apply (single_similar_no_alert _ _ _ Hsim).
  - intros T m v.
    assert (Hm : Q2R m = ((Q2R T + Q2R (amount s)) / 2)%R).
    { unfold m. rewrite (Qeq_eqR _ _ (pair_mean T (amount s))).
      rewrite Q2R_div by discriminate. rewrite Q2R_plus, Q2R_2. reflexivity. }
    assert (Hv : Q2R v = Rsqr ((Q2R T - Q2R (amount s)) / 2)).
    { unfold v, m. rewrite (Qeq_eqR _ _ (pair_variance T (amount s))).
      rewrite Q2R_div by discriminate.
      rewrite Q2R_mult, Q2R_minus, Q2R_4. unfold Rsqr. field. }
    assert (Hs : (2 * sqrt (Q2R v) = Rabs (Q2R T - Q2R (amount s)))%R).
    { rewrite Hv, sqrt_Rsqr_abs.
      unfold Rdiv. rewrite Rabs_mult, (Rabs_pos_eq (/ 2)) by lra. field. }
    rewrite Hm, Hs. split; [reflexivity|].
    pose proof (Rle_abs (Q2R T - Q2R (amount s))).
    pose proof (Rabs_pos (Q2R T - Q2R (amount s))).
    lra.
Qed.

(** A spike alert needs at least two similar transactions. *)
Corollary spike_needs_two_similar (transactions : list Transaction) (txn : Transaction) :
  spike_alerts transactions txn <> [] ->
  (2 <= List.length (similar_to txn transactions))%nat.
Proof.
  intros H.
  destruct (similar_to txn transactions) as [|s [|s' l]] eqn:E; simpl; try lia.
  - exfalso. apply H. unfold spike_alerts. rewrite E.
    destruct (negb _); reflexivity.
  - exfalso. apply H. exact (single_similar_no_alert transactions txn s E).
Qed.

Lemma single_similar_never_spikes_witness :
  similar_to (food 5 100) one_similar = [food 4 110]
  /\ spike_alerts one_similar (food 5 100) = [].
Proof.
  assert (H : similar_to (food 5 100) one_similar = [food 4 110])
    by (vm_compute; reflexivity).
  split; [exact H|].
  destruct (single_similar_never_spikes one_similar (food 5 100) (food 4 110) H)
    as [Hnone _].
  exact Hnone.
Defined.

(** ** The trend ratio *)

Lemma points_from_cons (i : nat) (v : Q) (vs : list Q) :
  points_from i (v :: vs) = (inject_Z (Z.of_nat i), v) :: points_from (S i) vs.
Proof. reflexivity. Qed.

Lemma trend_sums_spec (vs : list Q) : forall (i : nat) (a b c d : Q),
  let '(a', b', c', d') := trend_sums i vs (a, b, c, d) in
  a' == a + Sxy (points_from i vs) /\ b' == b + Sx (points_from i vs)
  /\ c' == c + Sxx (points_from i vs) /\ d' == d + Sy (points_from i vs).
Proof.
  induction vs as [|v vs IH]; intros i a b c d.
  - simpl. unfold Sxy, Sx, Sxx, Sy, sum. simpl. repeat split; ring.
  - simpl trend_sums.
    specialize (IH (S i) (a + inject_Z (Z.of_nat i) * v) (b + inject_Z (Z.of_nat i))
                   (c + inject_Z (Z.of_nat i) * inject_Z (Z.of_nat i)) (d + v)).
    destruct (trend_sums (S i) vs _) as [[[a' b'] c'] d'].
    destruct IH as (Ha & Hb & Hc & Hd).
    rewrite points_from_cons. unfold Sxy, Sx, Sxx, Sy in *. simpl map.
    rewrite !sum_cons. simpl fst. simpl snd.
    rewrite Ha, Hb, Hc, Hd. repeat split; ring.
Qed.

Lemma count_cons {A : Type} (x : A) (l : list A) : count (x :: l) == count l + 1.
Proof.
  unfold count. simpl List.length. rewrite Nat2Z.inj_succ, <- Z.add_1_r.
  rewrite inject_Z_plus. reflexivity.
Qed.

Lemma centered_products (pts : list (Q * Q)) (a b : Q) :
  sum (map (fun p => (fst p - a) * (snd p - b)) pts)
  == Sxy pts - a * Sy pts - b * Sx pts + count pts * a * b.
Proof.
  induction pts as [|[x y] pts IH].
  - unfold Sxy, Sy, Sx, sum, count. simpl. ring.
  - unfold Sxy, Sy, Sx in *. simpl map. rewrite !sum_cons, count_cons, IH.
    simpl fst. simpl snd. ring.
Qed.

Lemma centered_squares (pts : list (Q * Q)) (a : Q) :
  sum (map (fun p => (fst p - a) * (fst p - a)) pts)
  == Sxx pts - 2 * a * Sx pts + count pts * a * a.
Proof.
  induction pts as [|[x y] pts IH].
  - unfold Sxx, Sx, sum, count. simpl. ring.
  - unfold Sxx, Sx in *. simpl map. rewrite !sum_cons, count_cons, IH.
    simpl fst. ring.
Qed.

Lemma sum_nonneg (l : list Q) : Forall (fun x => 0 <= x) l -> 0 <= sum l.
Proof.
  induction 1 as [|x l Hx _ IH].
  - unfold sum. simpl. lra.
  - rewrite sum_cons. lra.
Qed.

Lemma two_squares_pos (x : Q) : 0 < (0 - x) * (0 - x) + (1 - x) * (1 - x).
Proof.
  assert (E : (0 - x) * (0 - x) + (1 - x) * (1 - x)
              == 2 * ((x - (1#2)) * (x - (1#2))) + (1#2)) by ring.
  rewrite E. pose proof (Qsquare_nonneg (x - (1#2))). lra.
Qed.

Lemma index_spread_pos (ys : list Q) (a : Q) :
  (2 <= List.length ys)%nat ->
  0 < sum (map (fun p => (fst p - a) * (fst p - a)) (points_from 0 ys)).
Proof.
  destruct ys as [|y0 [|y1 ys]]; simpl List.length; try lia. intros _.
  rewrite !points_from_cons. simpl map. rewrite !sum_cons. simpl fst.
  assert (H : 0 <= sum (map (fun p => (fst p - a) * (fst p - a)) (points_from 2 ys))).
  { apply sum_nonneg. apply Forall_forall. intros x Hx.
    apply in_map_iff in Hx. destruct Hx as (p & <- & _). apply Qsquare_nonneg. }
  pose proof (two_squares_pos a) as H2.
  change (inject_Z (Z.of_nat 0)) with 0. change (inject_Z (Z.of_nat 1)) with 1.
  change (inject_Z 0) with 0. change (inject_Z 1) with 1.
  set (rest := sum _) in *. lra.
Qed.

Lemma points_from_length (ys : list Q) (i : nat) :
  List.length (points_from i ys) = List.length ys.
Proof.
  unfold points_from. rewrite length_combine, length_map, length_seq. lia.
Qed.

Lemma points_from_snd (ys : list Q) : forall i, map snd (points_from i ys) = ys.
Proof.
  induction ys as [|y ys IH]; intros i; [reflexivity|].
  rewrite points_from_cons. simpl. f_equal. apply IH.
Qed.

Lemma len_pos (xs : list Q) : (1 <= List.length xs)%nat -> 0 < len xs.
Proof.
  intros H. unfold len. change 0 with (inject_Z 0). rewrite <- Zlt_Qlt. lia.
Qed.

(** From two values on, the denominator of the slope is positive. *)
Lemma trend_denominator_pos (xs : list Q) :
  (2 <= List.length xs)%nat ->
  let pts := points_from 0 xs in
  0 < len xs * Sxx pts - Sx pts * Sx pts.
Proof.
  intros H2 pts.
  assert (HN : 0 < len xs) by (apply len_pos; lia).
  pose proof (index_spread_pos xs (Sx pts / len xs) H2) as Hpos. fold pts in Hpos.
  rewrite centered_squares in Hpos.
  assert (Hc : count pts = len xs).
  { unfold count, len, pts. rewrite points_from_length. reflexivity. }
  rewrite Hc in Hpos.
  assert (E : len xs * Sxx pts - Sx pts * Sx pts
              == len xs * (Sxx pts - 2 * (Sx pts / len xs) * Sx pts
                           + len xs * (Sx pts / len xs) * (Sx pts / len xs))).
  { field. lra. }
  rewrite E. apply Qmult_lt_0_compat; assumption.
Qed.

Lemma calculateTrend_ols (xs : list Q) :
  (2 <= List.length xs)%nat -> 0 < mean xs ->
  calculateTrend xs == ols_slope_spec xs / mean xs.
Proof.
  intros H2 Hmean.
  assert (HN : 0 < len xs) by (apply len_pos; lia).
  pose proof (trend_denominator_pos xs H2) as Hden. cbv zeta in Hden.
  unfold calculateTrend, ols_slope_spec.
  destruct (Nat.ltb_spec (List.length xs) 2) as [Hlt|_]; [lia|].
  pose proof (trend_sums_spec xs 0 0 0 0 0) as Hs.
  destruct (trend_sums 0 xs (0, 0, 0, 0)) as [[[a b] c] d].
  destruct Hs as (Ha & Hb & Hc & Hd).
  set (pts := points_from 0 xs) in *.
  assert (Hcount : count pts = len xs).
  { unfold count, len, pts. rewrite points_from_length. reflexivity. }
  assert (HSy : Sy pts = sum xs).
  { unfold Sy, pts. rewrite points_from_snd. reflexivity. }
  assert (Hlenx : len (map fst pts) = len xs).
  { unfold len, pts. rewrite length_map, points_from_length. reflexivity. }
  assert (Hleny : len (map snd pts) = len xs).
  { unfold len, pts. rewrite length_map, points_from_length. reflexivity. }
  rewrite Qplus_0_l in Ha, Hb, Hc, Hd.
  assert (Hd' : d == sum xs) by (rewrite Hd, HSy; reflexivity).
  assert (Hdenq : len xs * c - b * b == len xs * Sxx pts - Sx pts * Sx pts)
    by (rewrite Hb, Hc; reflexivity).
  destruct (Qeq_bool (len xs * c - b * b) 0) eqn:Ez.
  { apply Qeq_bool_iff in Ez. rewrite Hdenq in Ez. lra. }
  assert (Havg : d / len xs == mean xs) by (unfold mean; rewrite Hd'; reflexivity).
  destruct (Qlt_bool 0 (d / len xs)) eqn:Eavg.
  2:{ apply Qlt_bool_false_iff in Eavg. rewrite Havg in Eavg. lra. }
  rewrite centered_products, centered_squares, Hcount.
  unfold mean in *. rewrite !Hlenx, !Hleny.
  fold (Sx pts). fold (Sy pts). rewrite !HSy.
  rewrite Ha, Hb, Hc, Hd'.
  assert (Hsum : ~ sum xs == 0).
  { intro E. rewrite E in Hmean. unfold Qdiv in Hmean. rewrite Qmult_0_l in Hmean. lra. }
  field. repeat split; lra.
Qed.








(** ** The forecast *)

Lemma max0_Qmax (x : Q) : max0 x == Qmax 0 x.
Proof.
  unfold max0. destruct (Qle_bool 0 x) eqn:E.
  - apply Qle_bool_iff in E. symmetry. apply Q.max_r. exact E.
  - apply Qle_bool_false_iff in E. symmetry. apply Q.max_l. lra.
Qed.

Lemma max0_nonneg (x v : Q) : x == v -> 0 <= v -> max0 x == v.
Proof.
  intros E Hv. unfold max0. destruct (Qle_bool 0 x) eqn:Ex; [exact E|].
  apply Qle_bool_false_iff in Ex. lra.
Qed.

Lemma constant_sums (c : Q) (vs : list Q) :
  Forall (fun v => v == c) vs ->
  forall i, Sxy (points_from i vs) == c * Sx (points_from i vs)
            /\ Sy (points_from i vs) == count vs * c.
Proof.
  induction 1 as [|v vs Hv _ IH]; intros i.
  - unfold Sxy, Sx, Sy, sum, count. simpl. split; ring.
  - rewrite points_from_cons. destruct (IH (S i)) as [IH1 IH2].
    unfold Sxy, Sx, Sy in *. simpl map. rewrite !sum_cons, count_cons.
    simpl fst. simpl snd. rewrite IH1, IH2, Hv. split; ring.
Qed.

(** A flat sequence has trend 0. *)
Lemma calculateTrend_constant (c : Q) (vs : list Q) :
  Forall (fun v => v == c) vs -> calculateTrend vs == 0.
Proof.
  intros Hc. unfold calculateTrend.
  destruct (List.length vs <? 2)%nat; [reflexivity|].
  pose proof (trend_sums_spec vs 0 0 0 0 0) as Hs.
  destruct (trend_sums 0 vs (0, 0, 0, 0)) as [[[a b] k] d].
  destruct Hs as (Ha & Hb & _ & Hd).
  destruct (constant_sums c vs Hc 0) as [Hxy Hy].
  assert (Hnum : len vs * a - b * d == 0).
  { rewrite Ha, Hb, Hd, Hxy, Hy. unfold count, len. ring. }
  destruct (Qeq_bool _ 0); [reflexivity|].
  destruct (Qlt_bool 0 (d / len vs)); [|reflexivity].
  rewrite Hnum. unfold Qdiv. ring.
Qed.

Lemma sum_constant (c : Q) (vs : list Q) :
  Forall (fun v => v == c) vs -> sum vs == len vs * c.
Proof.
  induction 1 as [|v vs Hv _ IH].
  - unfold sum, len. simpl. ring.
  - change (len (v :: vs)) with (count (v :: vs)).
    rewrite count_cons, sum_cons, IH, Hv. unfold count, len. ring.
Qed.

Lemma mean_constant (c : Q) (vs : list Q) :
  (1 <= List.length vs)%nat -> Forall (fun v => v == c) vs -> mean vs == c.
Proof.
  intros Hlen Hc. unfold mean. rewrite (sum_constant c vs Hc).
  pose proof (len_pos vs Hlen). field. lra.
Qed.

Lemma slice_last_Forall {A : Type} (P : A -> Prop) (n : nat) (xs : list A) :
  Forall P xs -> Forall P (slice_last n xs).
Proof.
  intros H. unfold slice_last. apply Forall_forall. intros x Hx.
  rewrite Forall_forall in H. apply H.
  rewrite <- (firstn_skipn (List.length xs - n) xs). apply in_or_app. right. exact Hx.
Qed.

Lemma values_of_length (proj : MonthTotals -> Q) (data : JSObject MonthTotals) :
  List.length (values_of proj data) = List.length (sorted_keys data).
Proof. unfold values_of. apply length_map. Qed.

(** C5.  With transactions, the forecast has one point for each of the
    [monthsAhead] months.  In every point the projected income is
    [max(0, avgIncome * (1 + incomeTrend * 0.5))], the projected expense
    [max(0, avgExpense * (1 + expenseTrend * 0.5))], the projected savings
    their difference and the confidence 0.75, where the averages are over
    all bucketed months and the trends over the last three.  With six
    bucketed months of income 50000 and expense 40000 every point is
    50000, 40000, 10000 and 0.75. *)
Theorem forecast_points (tz now monthsAhead : Z) (transactions : list Transaction) :
  transactions <> [] ->
  let data := monthlyData tz transactions in
  let incomeValues := values_of month_income data in
  let expenseValues := values_of month_expense data in
  let incomeTrend := calculateTrend (slice_last 3 incomeValues) in
  let expenseTrend := calculateTrend (slice_last 3 expenseValues) in
  let forecasts := forecastCashFlow tz now (Some transactions) monthsAhead in
  List.length forecasts = Z.to_nat monthsAhead
  /\ Forall (fun p =>
        predictedIncome p == Qmax 0 (mean incomeValues * (1 + incomeTrend * 0.5))
        /\ predictedExpense p == Qmax 0 (mean expenseValues * (1 + expenseTrend * 0.5))
        /\ predictedSavings p == predictedIncome p - predictedExpense p
        /\ confidence p = 0.75) forecasts
  /\ (List.length incomeValues = 6%nat ->
      Forall (fun v => v == 50000) incomeValues ->
      Forall (fun v => v == 40000) expenseValues ->
      Forall (fun p =>
                predictedIncome p == 50000 /\ predictedExpense p == 40000
                /\ predictedSavings p == 10000 /\ confidence p = 0.75) forecasts).
Proof.
  intros Hne data incomeValues expenseValues incomeTrend expenseTrend forecasts.
  destruct transactions as [|t ts]; [contradiction|].
  subst forecasts. unfold forecastCashFlow.
  fold data. fold incomeValues. fold expenseValues.
  fold (mean incomeValues). fold (mean expenseValues).
  fold incomeTrend. fold expenseTrend.
  split; [rewrite length_map, length_seq; reflexivity|].
  split.
  - apply Forall_forall. intros p Hp. apply in_map_iff in Hp.
    destruct Hp as (i & <- & _). simpl.
    repeat split; try reflexivity; apply max0_Qmax.
  - intros Hlen Hinc Hexp.
    assert (Hlen' : List.length expenseValues = 6%nat).
    { unfold expenseValues. rewrite values_of_length.
      unfold incomeValues in Hlen. rewrite values_of_length in Hlen. exact Hlen. }
    assert (Hit : incomeTrend == 0).
    { apply (calculateTrend_constant 50000). apply slice_last_Forall. exact Hinc. }
    assert (Het : expenseTrend == 0).
    { apply (calculateTrend_constant 40000). apply slice_last_Forall. exact Hexp. }
    assert (Him : mean incomeValues == 50000) by (apply mean_constant; [lia|exact Hinc]).
    assert (Hem : mean expenseValues == 40000) by (apply mean_constant; [lia|exact Hexp]).
    assert (Hpi : max0 (mean incomeValues * (1 + incomeTrend * 0.5)) == 50000).
    { apply max0_nonneg; [rewrite Him, Hit; ring | lra]. }
    assert (Hpe : max0 (mean expenseValues * (1 + expenseTrend * 0.5)) == 40000).
    { apply max0_nonneg; [rewrite Hem, Het; ring | lra]. }
    apply Forall_forall. intros p Hp. apply in_map_iff in Hp.
    destruct Hp as (i & <- & _). simpl.
    repeat split; try assumption. rewrite Hpi, Hpe. ring.
Qed.

Lemma forecast_points_witness :
  Forall (fun p =>
            predictedIncome p == 50000 /\ predictedExpense p == 40000
            /\ predictedSavings p == 10000 /\ confidence p = 0.75)
         (forecastCashFlow IST may_20 (Some six_months) 3)
  /\ List.length (forecastCashFlow IST may_20 (Some six_months) 3) = 3%nat.
Proof.
  assert (Hne : six_months <> []) by discriminate.
  destruct (forecast_points IST may_20 3 six_months Hne) as (Hlen & _ & Hflat).
  split; [|exact Hlen].
  apply Hflat.
  - vm_compute. reflexivity.
  - vm_compute. repeat constructor.
  - vm_compute. repeat constructor.
Defined.

(** ** Duplicates *)

Lemma timeDiff_lt (t1 t2 : Transaction) (m : Z) :
  timeDiff t1 t2 < inject_Z m
  <-> (Z.abs (created_at t1 - created_at t2) < m * 60000)%Z.
Proof.
  unfold timeDiff.
  change (Qabs (inject_Z (created_at t1 - created_at t2)))
    with (inject_Z (Z.abs (created_at t1 - created_at t2))).
  set (d := Z.abs (created_at t1 - created_at t2)).
  unfold Qdiv. change (/ inject_Z (1000 * 60)) with (1 # 60000).
  rewrite Zlt_Qlt, inject_Z_mult. change (inject_Z 60000) with 60000.
  split; intro H; lra.
Qed.

Lemma timeDiff_pos (t1 t2 : Transaction) :
  0 < timeDiff t1 t2 <-> (0 < Z.abs (created_at t1 - created_at t2))%Z.
Proof.
  unfold timeDiff.
  change (Qabs (inject_Z (created_at t1 - created_at t2)))
    with (inject_Z (Z.abs (created_at t1 - created_at t2))).
  set (d := Z.abs (created_at t1 - created_at t2)).
  unfold Qdiv. change (/ inject_Z (1000 * 60)) with (1 # 60000).
  rewrite Zlt_Qlt. change (inject_Z 0) with 0.
  split; intro H; lra.
Qed.

(** The test of the source is the test of the specification. *)
Lemma is_duplicate_close_pair (t1 t2 : Transaction) :
  is_duplicate t1 t2 = close_pair (t1, t2).
Proof.
  unfold is_duplicate, close_pair.
  rewrite <- !andb_assoc. f_equal. f_equal.
  rewrite andb_comm. f_equal.
  - apply eq_true_iff_eq. rewrite Qlt_bool_iff, Z.ltb_lt. apply timeDiff_pos.
  - apply eq_true_iff_eq. rewrite Qlt_bool_iff, Z.ltb_lt.
    change 60 with (inject_Z 60). apply timeDiff_lt.
Qed.

Lemma not_checked (key : string) (checked : list string) :
  ~ In key checked -> existsb (String.eqb key) checked = false.
Proof.
  intros H. destruct (existsb (String.eqb key) checked) eqn:E; [|reflexivity].
  apply existsb_exists in E. destruct E as (k & Hk & Ek).
  apply String.eqb_eq in Ek. subst k. contradiction.
Qed.

(** The inner loop on rows whose keys are new and different from each
    other: the findings of [t1] are appended in order, and [checked] only
    grows by keys of [t1]. *)
Lemma scan_from_spec (t1 : Transaction) (rest : list Transaction) :
  forall (dups : list Duplicate) (checked : list string),
    NoDup (map (pair_key t1) rest) ->
    (forall t2, In t2 rest -> ~ In (pair_key t1 t2) checked) ->
    exists checked',
      scan_from t1 rest (dups, checked)
      = (dups ++ map (duplicate_of t1) (filter (is_duplicate t1) rest), checked')
      /\ (forall k, In k checked' ->
                    In k checked \/ In k (map (pair_key t1) rest)).
Proof.
  induction rest as [|t2 rest IH]; intros dups checked Hnd Hnew.
  - exists checked. simpl. rewrite app_nil_r. auto.
  - simpl map in Hnd. inversion Hnd as [|k l Hk Hnd']; subst.
    simpl scan_from.
    rewrite (not_checked _ _ (Hnew t2 (or_introl eq_refl))).
    simpl filter. destruct (is_duplicate t1 t2).
    + destruct (IH (dups ++ [duplicate_of t1 t2]) (pair_key t1 t2 :: checked) Hnd')
        as (checked' & Hscan & Hsub).
      { intros t Ht [Heq|Hin].
        - apply Hk. rewrite Heq. apply in_map. exact Ht.
        - exact (Hnew t (or_intror Ht) Hin). }
      exists checked'. split.
      * rewrite Hscan. simpl. rewrite <- app_assoc. reflexivity.
      * intros k Hkin. destruct (Hsub k Hkin) as [[<-|H]|H]; simpl; auto.
    + destruct (IH dups checked Hnd') as (checked' & Hscan & Hsub).
      { intros t Ht. apply Hnew. right. exact Ht. }
      exists checked'. split; [exact Hscan|].
      intros k Hkin. destruct (Hsub k Hkin); simpl; auto.
Qed.

Lemma NoDup_app_inv {A : Type} (l1 l2 : list A) :
  NoDup (l1 ++ l2) ->
  NoDup l1 /\ NoDup l2 /\ (forall a, In a l1 -> ~ In a l2).
Proof.
  induction l1 as [|x l1 IH]; simpl; intros H.
  - repeat split; [constructor | exact H | intros a []].
  - inversion H as [|y l Hx Hnd]; subst.
    destruct (IH Hnd) as (H1 & H2 & H3).
    repeat split; [| exact H2 |].
    + constructor; [|exact H1]. intro Hin. apply Hx. apply in_or_app. auto.
    + intros a [<-|Ha]; [|auto]. intro Hin. apply Hx. apply in_or_app. auto.
Qed.

Lemma scan_all_spec (transactions : list Transaction) :
  forall (dups : list Duplicate) (checked : list string),
    NoDup (map key_of (all_pairs transactions)) ->
    (forall p, In p (all_pairs transactions) -> ~ In (key_of p) checked) ->
    fst (scan_all transactions (dups, checked))
    = dups ++ map (fun p => duplicate_of (fst p) (snd p))
                  (filter (fun p => is_duplicate (fst p) (snd p))
                          (all_pairs transactions)).
Proof.
  induction transactions as [|t1 rest IH]; intros dups checked Hnd Hnew.
  - simpl. rewrite app_nil_r. reflexivity.
  - simpl all_pairs in *. rewrite map_app, map_map in Hnd.
    apply NoDup_app_inv in Hnd. destruct Hnd as (Hnd1 & Hnd2 & Hdisj).
    destruct (scan_from_spec t1 rest dups checked Hnd1) as (checked' & Hscan & Hsub).
    { intros t2 Ht2. apply (Hnew (t1, t2)). apply in_or_app. left.
      apply in_map. exact Ht2. }
    simpl scan_all. rewrite Hscan. rewrite IH; [| exact Hnd2 |].
    + rewrite filter_app, map_app, <- app_assoc. f_equal. f_equal.
      clear. induction rest as [|t2 rest IH]; [reflexivity|].
      simpl. destruct (is_duplicate t1 t2); simpl; rewrite IH; reflexivity.
    + intros p Hp Hin. destruct (Hsub _ Hin) as [Hc|Hk].
      * apply (Hnew p); [apply in_or_app; right; exact Hp | exact Hc].
      * apply (Hdisj _ Hk). apply in_map. exact Hp.
Qed.

Lemma spike_alerts_type (transactions : list Transaction) (txn : Transaction) :
  Forall (fun a => alert_type a = sudden_spike /\ severity a = high)
         (spike_alerts transactions txn).
Proof.
  unfold spike_alerts.
  destruct (negb _); [constructor|].
  destruct (similar_to txn transactions); [constructor|].
  destruct (exceeds_two_sigma _ _ _); repeat constructor.
Qed.

Lemma duplicate_alerts_of (transactions : list Transaction) :
  filter is_duplicate_alert (detectAnomalies (Some transactions))
  = map duplicate_alert (findDuplicateTransactions transactions).
Proof.
  destruct transactions as [|t ts]; [reflexivity|].
  unfold detectAnomalies. rewrite filter_app.
  set (txs := t :: ts).
  assert (Hs : filter is_duplicate_alert
                 (flat_map (spike_alerts txs) (firstn 10 txs)) = []).
  { induction (firstn 10 txs) as [|x l IH]; [reflexivity|].
    simpl. rewrite filter_app, IH, app_nil_r.
    pose proof (spike_alerts_type txs x) as H.
    induction H as [|a l' [Ha _] _ IH']; [reflexivity|].
    simpl. unfold is_duplicate_alert at 1. rewrite Ha. exact IH'. }
  rewrite Hs. simpl.
  induction (findDuplicateTransactions txs) as [|d l IH]; [reflexivity|].
  simpl. rewrite IH. reflexivity.
Qed.

(** C4.  When the keys of different pairs of rows are different, the
    duplicate findings are, in the order of the pair scan, exactly one per
    pair [i < j] with the same amount, the same kind and creation times more
    than 0 and less than 60 minutes apart; [detectAnomalies] emits one alert
    of type duplicate for each, all of severity medium. *)
Theorem duplicates_once_per_pair (transactions : list Transaction) :
  distinct_pair_keys transactions ->
  findDuplicateTransactions transactions
  = map (fun p => duplicate_of (fst p) (snd p))
        (filter close_pair (all_pairs transactions))
  /\ filter is_duplicate_alert (detectAnomalies (Some transactions))
     = map (fun p => duplicate_alert (duplicate_of (fst p) (snd p)))
           (filter close_pair (all_pairs transactions))
  /\ Forall (fun a => severity a = medium)
            (filter is_duplicate_alert (detectAnomalies (Some transactions))).
Proof.
  intros Hkeys.
  assert (Hfind : findDuplicateTransactions transactions
                  = map (fun p => duplicate_of (fst p) (snd p))
                        (filter close_pair (all_pairs transactions))).
  { unfold findDuplicateTransactions.
    rewrite scan_all_spec; [| exact Hkeys | intros p _ []].
    simpl. f_equal. apply filter_ext. intros [t1 t2].
    apply is_duplicate_close_pair. }
  split; [exact Hfind|].
  rewrite duplicate_alerts_of, Hfind, map_map.
  split; [reflexivity|].
  apply Forall_forall. intros a Ha. apply in_map_iff in Ha.
  destruct Ha as (p & <- & _). reflexivity.
Qed.

Lemma duplicates_once_per_pair_witness :
  List.length (filter is_duplicate_alert (detectAnomalies (Some (purchase_pair 10))))
  = 1%nat
  /\ Forall (fun a => severity a = medium)
            (filter is_duplicate_alert (detectAnomalies (Some (purchase_pair 10)))).
Proof.
  assert (Hkeys : distinct_pair_keys (purchase_pair 10)).
  { unfold distinct_pair_keys. simpl. repeat constructor. intros []. }
  destruct (duplicates_once_per_pair (purchase_pair 10) Hkeys) as (_ & Hal & Hsev).
  split; [|exact Hsev].
  rewrite Hal. vm_compute. reflexivity.
Defined.

Example duplicates_90_minutes :
  filter is_duplicate_alert (detectAnomalies (Some (purchase_pair 90))) = [].
Proof. vm_compute. reflexivity. Qed.

Example duplicates_same_instant :
  filter is_duplicate_alert (detectAnomalies (Some (purchase_pair 0))) = [].
Proof. vm_compute. reflexivity. Qed.

Lemma append_inj_same_length (a c b d : string) :
  String.length a = String.length c ->
  (a ++ b)%string = (c ++ d)%string -> a = c /\ b = d.
Proof.
  revert c. induction a as [|x a IH]; intros [|y c]; simpl; try discriminate.
  - auto.
  - intros Hlen Heq. injection Hlen as Hlen. injection Heq as -> Heq.
    destruct (IH c Hlen Heq) as [-> ->]. auto.
Qed.

Lemma all_pairs_in (transactions : list Transaction) (p : Transaction * Transaction) :
  In p (all_pairs transactions) -> In (fst p) transactions /\ In (snd p) transactions.
Proof.
  induction transactions as [|t1 rest IH]; simpl; [intros []|].
  intros H. apply in_app_or in H. destruct H as [H|H].
  - apply in_map_iff in H. destruct H as (t2 & <- & Ht2). simpl. auto.
  - destruct (IH H). auto.
Qed.

(** Rows with their own identifiers, all of one length, have distinct pair
    keys. *)
Lemma uniform_ids_distinct_pair_keys (transactions : list Transaction) (n : nat) :
  NoDup (map txn_id transactions) ->
  Forall (fun t => String.length (txn_id t) = n) transactions ->
  distinct_pair_keys transactions.
Proof.
  unfold distinct_pair_keys.
  induction transactions as [|t1 rest IH]; intros Hnd Hlen; [constructor|].
  simpl in Hnd. inversion Hnd as [|i l Hi Hnd']; subst.
  inversion Hlen as [|t l Ht1 Hlen']; subst.
  simpl all_pairs. rewrite map_app. apply NoDup_app.
  - rewrite map_map.
    replace (map (fun x => key_of (t1, x)) rest)
      with (map (fun s => (txn_id t1 ++ "-" ++ s)%string) (map txn_id rest))
      by (rewrite map_map; reflexivity).
    apply Finite.Injective_map_NoDup; [|exact Hnd'].
    intros s s' Heq.
    apply (append_inj_same_length _ _ _ _ eq_refl) in Heq.
    destruct Heq as [_ Heq]. injection Heq as ->. reflexivity.
  - apply IH; assumption.
  - intros k Hk1 Hk2. rewrite map_map in Hk1.
    apply in_map_iff in Hk1. destruct Hk1 as (t2 & <- & Ht2).
    apply in_map_iff in Hk2. destruct Hk2 as (p & Hp & Hpin).
    destruct (all_pairs_in rest p Hpin) as [Hfst _].
    unfold key_of, pair_key in Hp. simpl in Hp.
    apply append_inj_same_length in Hp.
    + destruct Hp as [Hid _]. apply Hi. rewrite <- Hid. apply in_map. exact Hfst.
    + rewrite Forall_forall in Hlen'. rewrite (Hlen' _ Hfst). reflexivity.
Qed.

(** ** Dates *)

Lemma Z_range_in (lo : Z) (n : nat) (z : Z) :
  (lo <= z < lo + Z.of_nat n)%Z -> In z (Z_range lo n).
Proof.
  revert lo. induction n as [|n IH]; intros lo H; [lia|].
  simpl. destruct (Z.eq_dec lo z) as [->|Hne]; [left; reflexivity|].
  right. apply IH. lia.
Qed.

(** Known days: the epoch, and the leap days of 2000 and 2024. *)
Example calendar_anchors :
  civil_from_days 0 = mkDate 1970 1 1
  /\ civil_from_days 11016 = mkDate 2000 2 29
  /\ civil_from_days 19782 = mkDate 2024 2 29
  /\ days_from_civil 2024 3 1 = 19783%Z
  /\ parse (mkDate 2024 1 31) = 1706659200000%Z.
Proof. vm_compute. repeat split. Qed.

(** The two calendar conversions are inverse on the days of the years 1970
    to 2100. *)
Lemma civil_days_roundtrip (d : Z) :
  (0 <= d < 47847)%Z ->
  days_from_civil (year (civil_from_days d)) (month (civil_from_days d))
                  (day (civil_from_days d)) = d.
Proof.
  intros H.
  assert (Hall : forallb (fun d =>
                            (days_from_civil (year (civil_from_days d))
                                             (month (civil_from_days d))
                                             (day (civil_from_days d)) =? d)%Z)
                         (Z_range 0 (Z.to_nat 47847)) = true) by (vm_compute; reflexivity).
  rewrite forallb_forall in Hall.
  apply Z.eqb_eq. apply Hall. apply Z_range_in. lia.
Qed.

(** East of Greenwich, by less than a day, midnight UTC is the same local
    day. *)
Lemma local_day_of_midnight (tz D : Z) :
  (0 <= tz < 1440)%Z ->
  Day (LocalTime tz (MakeDate D 0)) = D
  /\ TimeWithinDay (LocalTime tz (MakeDate D 0)) = (tz * msPerMinute)%Z.
Proof.
  intros Htz.
  unfold Day, TimeWithinDay, LocalTime, MakeDate, msPerDay, msPerMinute.
  assert (H : (D * 86400000 + 0 + tz * 60000 = tz * 60000 + D * 86400000)%Z) by lia.
  rewrite H. split.
  - rewrite Z.div_add by lia. rewrite Z.div_small by lia. lia.
  - rewrite Z.mod_add by lia. apply Z.mod_small. lia.
Qed.

Section Offsets.
Variable tz : Z.
Hypothesis tz_range : (0 <= tz < 1440)%Z.

Ltac at_midnight D :=
  destruct (local_day_of_midnight tz D tz_range) as [?Hd ?Ht];
  destruct (local_day_of_midnight 0 D ltac:(lia)) as [?Hd0 ?Ht0].

Lemma setMonth_midnight (D m : Z) :
  setMonth tz (MakeDate D 0) m = setMonth 0 (MakeDate D 0) m.
Proof.
  unfold setMonth, getFullYear, getDate. at_midnight D.
  rewrite Hd, Ht, Hd0, Ht0. unfold UTC, MakeDate. lia.
Qed.

Lemma getMonth_midnight (D : Z) : getMonth tz (MakeDate D 0) = getMonth 0 (MakeDate D 0).
Proof. unfold getMonth. at_midnight D. rewrite Hd, Hd0. reflexivity. Qed.

Lemma getDate_midnight (D : Z) : getDate tz (MakeDate D 0) = getDate 0 (MakeDate D 0).
Proof. unfold getDate. at_midnight D. rewrite Hd, Hd0. reflexivity. Qed.

Lemma setDate_midnight (D dt : Z) :
  setDate tz (MakeDate D 0) dt = setDate 0 (MakeDate D 0) dt.
Proof.
  unfold setDate, getFullYear, getMonth. at_midnight D.
  rewrite Hd, Ht, Hd0, Ht0. unfold UTC, MakeDate. lia.
Qed.

(** The next occurrence after a date-only value does not depend on such an
    offset. *)
Lemma getNextOccurrence_offset (date : ISODate) (f : Frequency) :
  getNextOccurrence tz (parse date) f = getNextOccurrence 0 (parse date) f.
Proof.
  unfold parse.
  destruct f; unfold getNextOccurrence, addDays, addMonths;
    rewrite ?setDate_midnight, ?setMonth_midnight, ?getDate_midnight,
      ?getMonth_midnight; reflexivity.
Qed.

Lemma detectRecurringTransactions_offset (data : option (list Transaction)) :
  detectRecurringTransactions tz data = detectRecurringTransactions 0 data.
Proof.
  destruct data as [transactions|]; [|reflexivity].
  unfold detectRecurringTransactions. apply flat_map_ext. intros group.
  unfold suggestion_of.
  destruct (List.length group <? 2)%nat; [reflexivity|]. cbv zeta.
  destruct (day_diffs (sort_by by_date group) (0, 0)) as [totalDayDiff count].
  destruct (sort_by by_date group) as [|first rest]; [reflexivity|].
  rewrite getNextOccurrence_offset. reflexivity.
Qed.
End Offsets.

(** A charge on the 1st of four consecutive months, anywhere from 1970 to
    2099 and in any zone from UTC eastwards, is suggested as monthly, due on
    the 1st of the month after the last charge. *)
Lemma firsts_are_monthly (tz y m : Z) :
  (0 <= tz < 1440)%Z -> (1970 <= y < 2100)%Z -> (1 <= m <= 12)%Z ->
  exists r,
    detectRecurringTransactions tz (Some (netflix_firsts y m)) = [r]
    /\ frequency r = monthly
    /\ next_occurrence r = first_of_month y m 4
    /\ start_date r = first_of_month y m 0.
Proof.
  intros Htz Hy Hm. rewrite (detectRecurringTransactions_offset tz Htz).
  assert (Hall : forallb (fun y => forallb (firsts_ok y) (Z_range 1 (Z.to_nat 12)))
                         (Z_range 1970 (Z.to_nat 130)) = true) by (vm_compute; reflexivity).
  rewrite forallb_forall in Hall.
  assert (Hyin : In y (Z_range 1970 (Z.to_nat 130))) by (apply Z_range_in; lia).
  assert (Hmin : In m (Z_range 1 (Z.to_nat 12))) by (apply Z_range_in; lia).
  specialize (Hall y Hyin). rewrite forallb_forall in Hall.
  specialize (Hall m Hmin).
  unfold firsts_ok in Hall.
  destruct (detectRecurringTransactions 0 (Some (netflix_firsts y m)))
    as [|r [|r' l]]; try discriminate.
  exists r. apply andb_true_iff in Hall. destruct Hall as [Hall Hs].
  apply andb_true_iff in Hall. destruct Hall as [Hf Hn].
  assert (Heq : forall a b, ISODate_eqb a b = true -> a = b).
  { intros [a1 a2 a3] [b1 b2 b3] H. unfold ISODate_eqb in H. simpl in H.
    apply andb_true_iff in H. destruct H as [H H3].
    apply andb_true_iff in H. destruct H as [H1 H2].
    apply Z.eqb_eq in H1, H2, H3. subst. reflexivity. }
  repeat split; [| apply Heq; exact Hn | apply Heq; exact Hs].
  destruct (frequency r); try discriminate. reflexivity.
Qed.

(** West of Greenwich a date-only value is the evening of the day before in
    local time, and the same charges on the 1st of January to April 2024
    are due on 2 May at UTC-5: 31 April overflows. *)
Example firsts_west_of_greenwich :
  map next_occurrence (detectRecurringTransactions (-300) (Some (netflix_firsts 2024 1)))
  = [mkDate 2024 5 2].
Proof. vm_compute. reflexivity. Qed.

(** C3, evaluated.  Charges on 31 December 2023 and 31 January 2024 are
    suggested as monthly, and the next occurrence is 2 March 2024: the month
    of the date is advanced with the day kept, and 31 February overflows
    into March.  From 31 January 2023 the result is 3 March 2023. *)
Theorem month_end_rolls_into_march :
  map frequency (detectRecurringTransactions IST (Some netflix_month_end)) = [monthly]
  /\ map next_occurrence (detectRecurringTransactions IST (Some netflix_month_end))
     = [mkDate 2024 3 2]
  /\ map next_occurrence (detectRecurringTransactions 0 (Some netflix_month_end))
     = [mkDate 2024 3 2]
  /\ toISODateString (addMonths IST (parse (mkDate 2023 1 31)) 1) = mkDate 2023 3 3.
Proof. vm_compute. repeat split. Qed.

(** ** Objects and sorting *)

Lemma get_update {V : Type} (o : JSObject V) (k c : string) (init : V) (f : V -> V) :
  get (update o k init f) c
  = if String.eqb k c
    then Some (f (match get o k with Some v => v | None => init end))
    else get o c.
Proof.
  induction o as [|[k' v] o IH]; simpl.
  - destruct (String.eqb k c); reflexivity.
  - destruct (String.eqb k' k) eqn:Ek; simpl.
    + apply String.eqb_eq in Ek. subst k'.
      destruct (String.eqb k c); reflexivity.
    + rewrite IH. destruct (String.eqb k c) eqn:Ec; [|reflexivity].
      apply String.eqb_eq in Ec. subst c. rewrite Ek. reflexivity.
Qed.

Lemma update_keys {V : Type} (o : JSObject V) (k : string) (init : V) (f : V -> V) :
  forall c, In c (map fst (update o k init f)) <-> In c (map fst o) \/ c = k.
Proof.
  induction o as [|[k' v] o IH]; intros c; simpl.
  - intuition.
  - destruct (String.eqb k' k) eqn:Ek; simpl.
    + apply String.eqb_eq in Ek. subst k'. intuition.
    + rewrite IH. intuition.
Qed.

Lemma update_NoDup {V : Type} (o : JSObject V) (k : string) (init : V) (f : V -> V) :
  NoDup (map fst o) -> NoDup (map fst (update o k init f)).
Proof.
  induction o as [|[k' v] o IH]; simpl; intros H.
  - constructor; [intros []|constructor].
  - inversion H as [|x l Hx Hnd]; subst.
    destruct (String.eqb k' k) eqn:Ek; simpl.
    + constructor; assumption.
    + constructor; [|apply IH; exact Hnd].
      rewrite update_keys. intros [Hin | ->]; [contradiction|].
      rewrite String.eqb_refl in Ek. discriminate.
Qed.

Lemma get_In {V : Type} (o : JSObject V) (k : string) (v : V) :
  NoDup (map fst o) -> (In (k, v) o <-> get o k = Some v).
Proof.
  induction o as [|[k' v'] o IH]; simpl; intros Hnd.
  - split; [intros []|discriminate].
  - inversion Hnd as [|x l Hx Hnd']; subst.
    destruct (String.eqb k' k) eqn:Ek.
    + apply String.eqb_eq in Ek. subst k'. split.
      * intros [H|H]; [congruence|]. exfalso. apply Hx.
        apply (in_map fst) in H. exact H.
      * intros H. left. congruence.
    + rewrite <- (IH Hnd'). split; [|auto].
      intros [H|H]; [|exact H]. injection H as -> _.
      rewrite String.eqb_refl in Ek. discriminate.
Qed.

Lemma insert_by_Permutation {A : Type} (lt : A -> A -> bool) (x : A) (l : list A) :
  Permutation (insert_by lt x l) (x :: l).
Proof.
  induction l as [|y l IH]; simpl; [reflexivity|].
  destruct (lt y x); [|reflexivity].
  rewrite IH. apply perm_swap.
Qed.

Lemma sort_by_Permutation {A : Type} (lt : A -> A -> bool) (l : list A) :
  Permutation (sort_by lt l) l.
Proof.
  induction l as [|x l IH]; simpl; [reflexivity|].
  rewrite insert_by_Permutation. constructor. exact IH.
Qed.

Lemma filter_split_Permutation {A : Type} (f : A -> bool) (l : list A) :
  Permutation (filter f l ++ filter (fun a => negb (f a)) l) l.
Proof.
  induction l as [|x l IH]; simpl; [reflexivity|].
  destruct (f x); simpl.
  - constructor. exact IH.
  - rewrite <- Permutation_middle. constructor. exact IH.
Qed.

Lemma entries_Permutation {V : Type} (o : JSObject V) : Permutation (entries o) o.
Proof.
  unfold entries. rewrite sort_by_Permutation. apply filter_split_Permutation.
Qed.

Lemma filter_Permutation {A : Type} (f : A -> bool) (l l' : list A) :
  Permutation l l' -> Permutation (filter f l) (filter f l').
Proof.
  induction 1 as [| x l l' _ IH | x y l | l l' l'' _ IH1 _ IH2]; simpl.
  - reflexivity.
  - destruct (f x); [constructor|]; exact IH.
  - destruct (f x), (f y); try reflexivity. apply perm_swap.
  - rewrite IH1. exact IH2.
Qed.

(** ** Grouping by category *)

Lemma grouping_get (transactions : list Transaction) :
  forall (o : JSObject (list Q)) (c : string),
    get (fold_left
           (fun data txn =>
              update data (or_default (category_name txn) "Uncategorized")
                     [] (fun amounts => amounts ++ [amount txn]))
           transactions o) c
    = match get o c with
      | Some l => Some (l ++ amounts_of c transactions)
      | None =>
          match amounts_of c transactions with
          | [] => None
          | l => Some l
          end
      end.
Proof.
  induction transactions as [|t ts IH]; intros o c.
  - simpl. destruct (get o c); [rewrite app_nil_r|]; reflexivity.
  - simpl fold_left. rewrite IH, get_update.
    unfold amounts_of. simpl filter. fold (label t).
    destruct (String.eqb (label t) c) eqn:Ec.
    + apply String.eqb_eq in Ec. subst c. simpl map.
      destruct (get o (label t)); simpl.
      * rewrite <- app_assoc. reflexivity.
      * reflexivity.
    + reflexivity.
Qed.

Lemma grouping_NoDup (transactions : list Transaction) :
  forall o : JSObject (list Q),
    NoDup (map fst o) ->
    NoDup (map fst
             (fold_left
                (fun data txn =>
                   update data (or_default (category_name txn) "Uncategorized")
                          [] (fun amounts => amounts ++ [amount txn]))
                transactions o)).
Proof.
  induction transactions as [|t ts IH]; intros o Hnd; [exact Hnd|].
  simpl. apply IH. apply update_NoDup. exact Hnd.
Qed.

(** The groups are the categories with a row, each with its amounts in
    the order of the rows. *)
Lemma categoryData_entry (transactions : list Transaction) (c : string) (l : list Q) :
  In (c, l) (categoryData transactions)
  <-> l = amounts_of c transactions /\ l <> [].
Proof.
  unfold categoryData.
  rewrite get_In by (apply grouping_NoDup; constructor).
  rewrite grouping_get. simpl.
  destruct (amounts_of c transactions) as [|a l'].
  - split; [discriminate|]. intros [-> H]. contradiction.
  - split.
    + intros H. injection H as <-. split; [reflexivity|discriminate].
    + intros [-> _]. reflexivity.
Qed.

Lemma amounts_of_Permutation (c : string) (l l' : list Transaction) :
  Permutation l l' -> Permutation (amounts_of c l) (amounts_of c l').
Proof.
  intros H. unfold amounts_of. apply Permutation_map. apply filter_Permutation. exact H.
Qed.

(** ** Sums of squares *)

Lemma fold_squares (avg : Q) (l : list Q) (a : Q) :
  fold_left (fun sq n => sq + (n - avg) * (n - avg)) l a
  == a + sum (map (fun n => (n - avg) * (n - avg)) l).
Proof.
  revert a. induction l as [|x l IH]; intros a; simpl.
  - unfold sum. simpl. ring.
  - rewrite IH, sum_cons. ring.
Qed.

(** ** The pattern analyzer under reordering *)

Section Reordering.
Import Double.

Lemma update_as_doubles (o : JSObject (list Q)) (k : string) (x : Q) :
  update (as_doubles o) k [] (fun amounts => amounts ++ [Number x])
  = as_doubles (update o k [] (fun amounts => amounts ++ [x])).
Proof.
  induction o as [|[k' v] o IH]; simpl; [reflexivity|].
  destruct (String.eqb k' k); simpl.
  - rewrite map_app. reflexivity.
  - rewrite IH. reflexivity.
Qed.

Lemma grouping_thrown (transactions : list Transaction) :
  fold_left Rounded.push_amount transactions None = None.
Proof. induction transactions as [|t ts IH]; [reflexivity | exact IH]. Qed.

Lemma grouping_as_doubles (transactions : list Transaction) :
  forall o : JSObject (list Q),
    fold_left Rounded.push_amount transactions (Some (as_doubles o))
    = if existsb inherited_label transactions then None
      else Some (as_doubles
                   (fold_left
                      (fun data txn =>
                         update data (or_default (category_name txn) "Uncategorized")
                                [] (fun amounts => amounts ++ [amount txn]))
                      transactions o)).
Proof.
  induction transactions as [|t ts IH]; intros o; [reflexivity|].
  simpl fold_left. simpl existsb. unfold inherited_label at 1, label.
  destruct (Rounded.inherited (or_default (category_name t) "Uncategorized")); simpl.
  - apply grouping_thrown.
  - rewrite update_as_doubles. apply IH.
Qed.

(** The groups are those of the exact model with their amounts converted,
    unless a category has the name of an inherited member. *)
Lemma categoryData_as_doubles (transactions : list Transaction) :
  Rounded.categoryData transactions
  = if existsb inherited_label transactions then None
    else Some (as_doubles (categoryData transactions)).
Proof. exact (grouping_as_doubles transactions []). Qed.

Lemma existsb_Permutation {A : Type} (f : A -> bool) (l l' : list A) :
  Permutation l l' -> existsb f l = existsb f l'.
Proof.
  induction 1 as [| x l l' _ IH | x y l | l l' l'' _ IH1 _ IH2]; simpl.
  - reflexivity.
  - rewrite IH. reflexivity.
  - destruct (f x), (f y); reflexivity.
  - rewrite IH1. exact IH2.
Qed.

Lemma reported_pattern_of (pow : double -> double -> double) (tz now : Z)
      (transactions : list Transaction) (es : JSObject (list Q)) :
  map reported (flat_map (Rounded.pattern_of pow tz now transactions) (as_doubles es))
  = flat_map reported_of (map (fun e => (fst e, List.length (snd e))) es).
Proof.
  induction es as [|[c l] es IH]; [reflexivity|].
  simpl. rewrite map_app, IH. f_equal.
  unfold reported_of. simpl. rewrite length_map.
  destruct (List.length l <? 2)%nat; [reflexivity|].
  simpl. unfold reported, confidence_of, confidence_at, Rounded.len. simpl.
  rewrite length_map. reflexivity.
Qed.

Lemma group_sizes_In (transactions : list Transaction) (c : string) (n : nat) :
  In (c, n) (group_sizes transactions)
  <-> n = List.length (amounts_of c transactions) /\ n <> O.
Proof.
  unfold group_sizes. rewrite in_map_iff. split.
  - intros ([c' l] & E & Hin). simpl in E. injection E as -> <-.
    apply categoryData_entry in Hin. destruct Hin as [-> Hne].
    split; [reflexivity|].
    destruct (amounts_of c transactions); [contradiction|discriminate].
  - intros [-> Hne]. exists (c, amounts_of c transactions). split; [reflexivity|].
    apply categoryData_entry. split; [reflexivity|].
    intros E. rewrite E in Hne. contradiction.
Qed.

Lemma group_sizes_keys (transactions : list Transaction) :
  NoDup (map fst (group_sizes transactions)).
Proof.
  unfold group_sizes. rewrite map_map. simpl.
  unfold categoryData. apply grouping_NoDup. constructor.
Qed.

(** The sizes of the groups do not depend on the order of the rows. *)
Lemma group_sizes_Permutation (transactions transactions' : list Transaction) :
  Permutation transactions transactions' ->
  Permutation (group_sizes transactions) (group_sizes transactions').
Proof.
  intros Hperm.
  apply NoDup_Permutation;
    try (apply (NoDup_map_inv fst); apply group_sizes_keys).
  intros [c n]. rewrite !group_sizes_In.
  rewrite (Permutation_length (amounts_of_Permutation c _ _ Hperm)). reflexivity.
Qed.

(** What the analyzer reports: nothing when a category has the name of an
    inherited member, and otherwise the categories with two rows or more,
    each with the confidence of its number of rows. *)
Lemma analyze_reported (pow : double -> double -> double) (tz now : Z)
      (transactions : list Transaction) :
  Permutation
    (map reported (Rounded.analyzeCategoryPatterns pow tz now (Some transactions)))
    (if existsb inherited_label transactions then []
     else flat_map reported_of (group_sizes transactions)).
Proof.
  destruct transactions as [|t ts]; [reflexivity|].
  unfold Rounded.analyzeCategoryPatterns. rewrite categoryData_as_doubles.
  destruct (existsb _ (t :: ts)); [reflexivity|].
  rewrite (Permutation_map reported (sort_by_Permutation _ _)).
  rewrite (Permutation_map reported
             (Permutation_flat_map _ (entries_Permutation _))).
  rewrite reported_pattern_of. reflexivity.
Qed.

Lemma dimes_Permutation : Permutation dimes dimes_reordered.
Proof.
  unfold dimes, dimes_reordered.
  apply (Permutation_app_tail [_; _] (l := [_; _; _]) (l' := [_; _; _])).
  apply (Permutation_rev [_; _; _]).
Qed.

End Reordering.

(** C9, amended.  On a reordered input the analyzer reports the same
    categories, each with the same confidence, whatever the power function
    of the runtime, the time zone and the clock.  (The means, the deviations,
    the trend and the order of the aggregates are not the same:
    [patterns_depend_on_order].) *)
Theorem patterns_up_to_order
        (pow : Double.double -> Double.double -> Double.double) (tz now : Z)
        (transactions transactions' : list Transaction) :
  Permutation transactions transactions' ->
  Permutation
    (map reported (Rounded.analyzeCategoryPatterns pow tz now (Some transactions)))
    (map reported (Rounded.analyzeCategoryPatterns pow tz now (Some transactions'))).
Proof.
  intros Hperm. rewrite !analyze_reported.
  rewrite (existsb_Permutation _ _ _ Hperm).
  destruct (existsb _ transactions'); [reflexivity|].
  apply Permutation_flat_map. apply group_sizes_Permutation. exact Hperm.
Qed.

Lemma patterns_up_to_order_witness :
  Permutation dimes dimes_reordered
  /\ forall pow,
      Permutation
        (map reported (Rounded.analyzeCategoryPatterns pow IST may_20 (Some dimes)))
        (map reported
             (Rounded.analyzeCategoryPatterns pow IST may_20 (Some dimes_reordered))).
Proof.
  split; [exact dimes_Permutation|].
  intros pow. apply (patterns_up_to_order pow IST may_20 dimes dimes_reordered).
  exact dimes_Permutation.
Defined.

(** The claim C9 as stated fails.  Food of 0.10, 0.20 and 0.30 beside two
    other expenses of 0.20: the sum of the food in this order gives the mean
    0.20000000000000004 and food comes first, the sum in the opposite order
    gives 0.19999999999999998 and food comes last; the trends differ as
    well. *)
Lemma patterns_depend_on_order :
  Permutation dimes dimes_reordered
  /\ forall pow,
      let out := Rounded.analyzeCategoryPatterns pow IST may_20 (Some dimes) in
      let out' := Rounded.analyzeCategoryPatterns pow IST may_20 (Some dimes_reordered) in
      map Rounded.category out = ["Food"; "Misc"]%string
      /\ map Rounded.category out' = ["Misc"; "Food"]%string
      /\ map Rounded.avgAmount out
         = [S754_finite false 7205759403792795 (-55); Double.Number 0.2]
      /\ map Rounded.avgAmount out'
         = [Double.Number 0.2; S754_finite false 7205759403792793 (-55)]
      /\ map Rounded.monthlyTrend out <> map Rounded.monthlyTrend out'.
Proof.
  split; [exact dimes_Permutation|].
  intros pow. vm_compute. repeat split. discriminate.
Qed.

(** Two categories with the same amounts come out in the order of their
    first rows. *)
Example patterns_tied :
  forall pow,
    map Rounded.category (Rounded.analyzeCategoryPatterns pow IST may_20 (Some tied))
    = ["Food"; "Fuel"]%string
    /\ map Rounded.category
           (Rounded.analyzeCategoryPatterns pow IST may_20 (Some tied_reordered))
       = ["Fuel"; "Food"]%string.
Proof. intros pow. vm_compute. split; reflexivity. Qed.

(** ** The monthly trend *)

(** C6, evaluated.  Two food expenses of 100, one in May and one in April:
    the date of an amount is looked up by its value among all the rows, so
    both amounts take the date of the first row and the trend is 200 for
    May and 0 for April, where the sums per calendar month are 100 and
    100. *)
Theorem monthly_trend_by_first_match :
  map monthlyTrend (analyzeCategoryPatterns IST may_20 (Some groceries))
  = [[0; 0; 0; 0; 0; 200]]
  /\ monthlyTrend_spec IST may_20 "Food" groceries = [0; 0; 0; 0; 100; 100]
  /\ map monthlyTrend (analyzeCategoryPatterns IST may_20 (Some (rev groceries)))
     = [[0; 0; 0; 0; 200; 0]].
Proof. vm_compute. repeat split. Qed.

(** The window of a month starts on its first day at the time of day of the
    clock: a row dated the 1st is in no window. *)
Example monthly_trend_drops_first_day :
  map monthlyTrend (analyzeCategoryPatterns IST may_20 (Some rents))
  = [[0; 0; 0; 0; 0; 40]]
  /\ monthlyTrend_spec IST may_20 "Rent" rents = [0; 0; 0; 0; 0; 70].
Proof. vm_compute. repeat split. Qed.

(** The same trend in the numbers of the runtime, and the empty input
    there. *)
Example monthly_trend_by_first_match_rounded :
  forall pow,
    map Rounded.monthlyTrend
        (Rounded.analyzeCategoryPatterns pow IST may_20 (Some groceries))
    = [map Double.Number [0; 0; 0; 0; 0; 200]]
    /\ map Rounded.monthlyTrend
           (Rounded.analyzeCategoryPatterns pow IST may_20 (Some (rev groceries)))
       = [map Double.Number [0; 0; 0; 0; 200; 0]].
Proof. intros pow. vm_compute. split; reflexivity. Qed.

Example empty_input_rounded :
  forall pow tz now,
    Rounded.analyzeCategoryPatterns pow tz now (Some []) = []
    /\ Rounded.analyzeCategoryPatterns pow tz now None = [].
Proof. intros pow tz now. split; reflexivity. Qed.

(** ** The spike test on a variance *)

Lemma variance_about_nonneg (avg : Q) (xs : list Q) : 0 <= variance_about avg xs.
Proof.
  unfold variance_about. rewrite fold_squares, Qplus_0_l.
  assert (Hs : 0 <= sum (map (fun n => (n - avg) * (n - avg)) xs)).
  { apply sum_nonneg. apply Forall_forall. intros x Hx.
    apply in_map_iff in Hx. destruct Hx as (n & <- & _). apply Qsquare_nonneg. }
  destruct xs as [|x xs].
  - unfold len. simpl. unfold Qdiv. change (/ inject_Z 0) with 0. lra.
  - apply Qle_shift_div_l; [apply len_pos; simpl; lia|]. lra.
Qed.

(** The test of [detectAnomalies] is
    [amount > avgAmount + 2 * Math.sqrt(variance)]. *)
Lemma spike_test_sqrt (x avg : Q) (xs : list Q) :
  exceeds_two_sigma x avg (variance_about avg xs) = true
  <-> (Q2R x > Q2R avg + 2 * sqrt (Q2R (variance_about avg xs)))%R.
Proof. apply exceeds_two_sigma_sqrt. apply variance_about_nonneg. Qed.

(** ** How many similar transactions a spike needs *)










(** ** The shape of the alerts *)

Lemma spike_alerts_origin (transactions : list Transaction) (txn : Transaction) :
  (List.length (spike_alerts transactions txn) <= 1)%nat
  /\ forall a, In a (spike_alerts transactions txn) ->
               txn_type txn = expense
               /\ alert_amount a = amount txn
               /\ alert_date a = transaction_date txn.
Proof.
  unfold spike_alerts.
  destruct (txn_type txn) eqn:Et; simpl; try (split; [lia | intros a []]).
  destruct (similar_to txn transactions); [split; [simpl; lia | intros a []]|].
  destruct (exceeds_two_sigma _ _ _); [|split; [simpl; lia | intros a []]].
  split; [simpl; lia|]. intros a [<-|[]]. auto.
Qed.

Lemma flat_map_short {A B : Type} (f : A -> list B) (l : list A) :
  (forall x, (List.length (f x) <= 1)%nat) ->
  (List.length (flat_map f l) <= List.length l)%nat.
Proof.
  intros H. induction l as [|x l IH]; simpl; [lia|].
  rewrite length_app. specialize (H x). lia.
Qed.

(** The alerts are the spikes, at most ten and each for an expense among
    the ten most recent rows, followed by the duplicates. *)
Theorem alerts_spikes_then_duplicates (data : option (list Transaction)) :
  exists spikes duplicates,
    detectAnomalies data = spikes ++ duplicates
    /\ (List.length spikes <= 10)%nat
    /\ (forall a, In a spikes ->
          alert_type a = sudden_spike /\ severity a = high
          /\ exists txn transactions,
               data = Some transactions /\ In txn (firstn 10 transactions)
               /\ txn_type txn = expense
               /\ alert_amount a = amount txn
               /\ alert_date a = transaction_date txn)
    /\ (forall a, In a duplicates ->
          alert_type a = duplicate /\ severity a = medium).
Proof.
  destruct data as [[|t ts]|].
  - exists [], []. split; [reflexivity|]. split; [simpl; lia|].
    split; intros a [].
  - set (txs := t :: ts).
    exists (flat_map (spike_alerts txs) (firstn 10 txs)),
           (map duplicate_alert (findDuplicateTransactions txs)).
    split; [reflexivity|]. split; [|split].
    + pose proof (flat_map_short (spike_alerts txs) (firstn 10 txs)
                    (fun x => proj1 (spike_alerts_origin txs x))) as H.
      pose proof (firstn_le_length 10 txs). lia.
    + intros a Ha. apply in_flat_map in Ha. destruct Ha as (txn & Htxn & Ha).
      pose proof (spike_alerts_type txs txn) as Hty. rewrite Forall_forall in Hty.
      destruct (Hty a Ha) as [H1 H2].
      destruct (proj2 (spike_alerts_origin txs txn) a Ha) as (H3 & H4 & H5).
      repeat split; try assumption. exists txn, txs. auto.
    + intros a Ha. apply in_map_iff in Ha. destruct Ha as (d & <- & _).
      split; reflexivity.
  - exists [], []. split; [reflexivity|]. split; [simpl; lia|].
    split; intros a [].
Qed.

(** ** The notification test on a flat history *)

Lemma sum_all_zero (l : list Q) : Forall (fun x => x == 0) l -> sum l == 0.
Proof.
  induction 1 as [|x l Hx _ IH]; [reflexivity|].
  rewrite sum_cons, IH, Hx. ring.
Qed.

Lemma variance_flat (h avg : Q) (l : list Q) :
  Forall (fun v => v == h) l -> avg == h -> variance_about avg l == 0.
Proof.
  intros Hl Ha. unfold variance_about. rewrite fold_squares, Qplus_0_l.
  rewrite sum_all_zero.
  - unfold Qdiv. ring.
  - apply Forall_forall. intros y Hy. apply in_map_iff in Hy.
    destruct Hy as (x & <- & Hx). rewrite Forall_forall in Hl.
    rewrite (Hl x Hx), Ha. ring.
Qed.

(** With fewer than three earlier amounts nothing is flagged; after three
    or more equal amounts [h], every amount above [h] is flagged and no
    other. *)
Theorem flat_history_flags_any_increase (h x : Q) (historical : list Q) :
  ((List.length historical < 3)%nat -> checkSpendingAnomalies_fires x historical = false)
  /\ ((3 <= List.length historical)%nat ->
      Forall (fun v => v == h) historical ->
      (checkSpendingAnomalies_fires x historical = true <-> h < x)).
Proof.
  unfold checkSpendingAnomalies_fires. split.
  - intros H. destruct (Nat.ltb_spec (List.length historical) 3); [reflexivity|lia].
  - intros H3 Hflat.
    destruct (Nat.ltb_spec (List.length historical) 3); [lia|].
    assert (Hm : mean historical == h) by (apply mean_constant; [lia|exact Hflat]).
    assert (Hv : variance_about (mean historical) historical == 0)
      by (apply (variance_flat h); assumption).
    unfold exceeds_two_sigma. rewrite andb_true_iff, !Qlt_bool_iff, Hv, Hm.
    split.
    + intros [Hpos _]. lra.
    + intros Hlt. split; [lra|].
      assert (E : 4 * 0 == 0) by ring. rewrite E.
      apply Qmult_lt_0_compat; lra.
Qed.

Lemma flat_history_flags_any_increase_witness :
  checkSpendingAnomalies_fires (10001 # 100) [100; 100; 100] = true.
Proof.
  destruct (flat_history_flags_any_increase 100 (10001 # 100) [100; 100; 100])
    as [_ H].
  apply H.
  - simpl. lia.
  - repeat constructor; reflexivity.
  - reflexivity.
Defined.

(** ** The order of the scores *)

Lemma ladder_monotone (r1 r2 : Double.double) :
  (r1 <=? r2)%double = true -> (fst (ladder r1) <= fst (ladder r2))%Z.
Proof.
  intros H. unfold ladder.
  repeat match goal with
    | |- context [Double.leb ?c r1] =>
        let E := fresh "E" in
        destruct (Double.leb c r1) eqn:E;
        [ rewrite (leb_trans c r1 r2 E H) | ]
    end; simpl; try lia;
  repeat match goal with
    | |- context [Double.leb ?c r2] => destruct (Double.leb c r2)
    end; simpl; lia.
Qed.

(** Of two months with an income other than 0, the one with the larger
    computed savings rate never gets the lower score. *)
Theorem score_follows_savings_rate (month1 month2 : list Transaction) :
  (total income month1 =? Double.of_Z 0)%double = false ->
  (total income month2 =? Double.of_Z 0)%double = false ->
  (savingsRate_of month1 <=? savingsRate_of month2)%double = true ->
  (score (getSpendingHealthScore (Some month1))
   <= score (getSpendingHealthScore (Some month2)))%Z.
Proof.
  intros H1 H2 Hle.
  destruct month1 as [|t1 ts1]; [discriminate|].
  destruct month2 as [|t2 ts2]; [discriminate|].
  pose proof (health_score_of_ladder t1 ts1 H1) as E1.
  pose proof (health_score_of_ladder t2 ts2 H2) as E2.
  cbv zeta in E1, E2.
  change (score (getSpendingHealthScore (Some (t1 :: ts1))))
    with (fst (score (getSpendingHealthScore (Some (t1 :: ts1))),
               category (getSpendingHealthScore (Some (t1 :: ts1))))).
  change (score (getSpendingHealthScore (Some (t2 :: ts2))))
    with (fst (score (getSpendingHealthScore (Some (t2 :: ts2))),
               category (getSpendingHealthScore (Some (t2 :: ts2))))).
  rewrite E1, E2. apply ladder_monotone. exact Hle.
Qed.

Lemma score_follows_savings_rate_witness :
  (score (getSpendingHealthScore (Some [salary 50000; spending 49000]))
   <= score (getSpendingHealthScore (Some [salary 50000; spending 32500])))%Z.
Proof.
  apply score_follows_savings_rate; vm_compute; reflexivity.
Defined.

(** ** The trend ratio has no unit *)




(** ** The trend of a straight line *)

Lemma progression_sums (a d : Q) (n : nat) : forall s,
  let pts := points_from s (map (fun i => a + d * inject_Z (Z.of_nat i)) (seq s n)) in
  Sy pts == count pts * a + d * Sx pts
  /\ Sxy pts == a * Sx pts + d * Sxx pts.
Proof.
  induction n as [|n IH]; intros s.
  - unfold Sy, Sx, Sxy, Sxx, sum, count. simpl. split; ring.
  - simpl seq. simpl map. cbv zeta. rewrite points_from_cons.
    destruct (IH (S s)) as [H1 H2]. cbv zeta in H1, H2.
    unfold Sy, Sx, Sxy, Sxx in *. simpl map. rewrite !sum_cons, count_cons.
    simpl fst. simpl snd. rewrite H1, H2. split; ring.
Qed.

Lemma progression_slope (a d : Q) (n : nat) :
  (2 <= n)%nat -> ols_slope_spec (progression a d n) == d.
Proof.
  intros Hn. unfold ols_slope_spec, progression.
  set (ys := map (fun i => a + d * inject_Z (Z.of_nat i)) (seq 0 n)).
  assert (Hlen : List.length ys = n) by (unfold ys; rewrite length_map, length_seq; reflexivity).
  set (pts := points_from 0 ys).
  pose proof (progression_sums a d n 0%nat) as Hsum. cbv zeta in Hsum.
  fold ys in Hsum. fold pts in Hsum. destruct Hsum as [Hy Hxy].
  assert (Hcount : count pts = len ys).
  { unfold count, len, pts. rewrite points_from_length. reflexivity. }
  assert (Hlx : len (map fst pts) = len ys).
  { unfold len, pts. rewrite length_map, points_from_length. reflexivity. }
  assert (Hly : len (map snd pts) = len ys).
  { unfold len, pts. rewrite length_map, points_from_length. reflexivity. }
  assert (HN : 0 < len ys) by (apply len_pos; lia).
  pose proof (index_spread_pos ys (mean (map fst pts)) ltac:(lia)) as Hpos.
  fold pts in Hpos.
  rewrite centered_squares in Hpos |- *. rewrite centered_products.
  unfold mean in *. rewrite Hlx in *. rewrite Hly. rewrite Hcount in *.
  fold (Sx pts) in *. fold (Sy pts). rewrite Hy, Hxy.
  set (N := len ys) in *. set (X := Sx pts) in *. set (XX := Sxx pts) in *.
  assert (Hden : ~ XX - 2 * (X / N) * X + N * (X / N) * (X / N) == 0) by lra.
  field. split; [lra|].
  assert (E : XX * N - 2 * X * X + X * X
              == N * (XX - 2 * (X / N) * X + N * (X / N) * (X / N))) by (field; lra).
  rewrite E.
  pose proof (Qmult_lt_0_compat _ _ HN Hpos). lra.
Qed.

(** On a straight line [a], [a + d], [a + 2 d], ... with positive mean the
    trend ratio is the step [d] over the mean. *)
Theorem calculateTrend_progression (a d : Q) (n : nat) :
  (2 <= n)%nat -> 0 < mean (progression a d n) ->
  calculateTrend (progression a d n) == d / mean (progression a d n).
Proof.
  intros Hn Hm. rewrite calculateTrend_ols.
  - rewrite progression_slope by exact Hn. reflexivity.
  - unfold progression. rewrite length_map, length_seq. exact Hn.
  - exact Hm.
Qed.

Lemma calculateTrend_progression_witness :
  calculateTrend [40000; 42000; 44000] == 2000 / 42000.
Proof.
  pose proof (calculateTrend_progression 40000 2000 3 ltac:(lia)) as H.
  assert (Hm : 0 < mean (progression 40000 2000 3)) by (vm_compute; reflexivity).
  specialize (H Hm).
  assert (E : mean (progression 40000 2000 3) == 42000) by (vm_compute; reflexivity).
  rewrite E in H.
  transitivity (calculateTrend (progression 40000 2000 3)); [|exact H].
  vm_compute. reflexivity.
Defined.

(** ** What the pattern analyzer reports *)

Section Reported.
Import Double.

Lemma is_one_iff (d : double) : is_one d = true <-> d = of_Z 1.
Proof.
  unfold is_one. split.
  - destruct d as [| | |[] m e]; try discriminate.
    rewrite andb_true_iff, Pos.eqb_eq, Z.eqb_eq. intros [-> ->]. reflexivity.
  - intros ->. reflexivity.
Qed.

Lemma confidence_checked :
  forallb (fun n => Bool.eqb (is_one (confidence_at n)) (10 <=? n)%Z)
          (Z_range 1 (Z.to_nat 100000)) = true.
Proof. vm_compute. reflexivity. Qed.

(** The confidence is 1 from ten rows on, and below ten rows it is not. *)
Lemma confidence_of_one (n : nat) :
  (1 <= Z.of_nat n <= 100000)%Z -> (confidence_of n = of_Z 1 <-> (10 <= n)%nat).
Proof.
  intros Hn. pose proof confidence_checked as H.
  rewrite forallb_forall in H.
  specialize (H (Z.of_nat n)).
  rewrite <- is_one_iff. unfold confidence_of.
  assert (Hin : In (Z.of_nat n) (Z_range 1 (Z.to_nat 100000))).
  { apply Z_range_in. lia. }
  specialize (H Hin). apply eqb_prop in H. rewrite H.
  rewrite Z.leb_le. lia.
Qed.

(** The aggregates of the output: one for each category with two rows or
    more, computed from the amounts of its rows in their order. *)
Lemma analyze_In (pow : double -> double -> double) (tz now : Z)
      (transactions : list Transaction) (p : Rounded.CategoryPattern) :
  existsb inherited_label transactions = false ->
  (In p (Rounded.analyzeCategoryPatterns pow tz now (Some transactions))
   <-> exists c,
       (2 <= List.length (rows_of c transactions))%nat
       /\ Rounded.pattern_of pow tz now transactions
            (c, map (fun t => Number (amount t)) (rows_of c transactions)) = [p]).
Proof.
  intros Hinh.
  assert (Hrows : forall c, map Number (amounts_of c transactions)
                            = map (fun t => Number (amount t)) (rows_of c transactions)).
  { intros c. unfold amounts_of, rows_of. rewrite map_map. reflexivity. }
  assert (Hlen : forall c, List.length (amounts_of c transactions)
                           = List.length (rows_of c transactions)).
  { intros c. unfold amounts_of, rows_of. rewrite length_map. reflexivity. }
  destruct transactions as [|t ts].
  { simpl. split; [intros []|]. intros (c & H & _). simpl in H. lia. }
  unfold Rounded.analyzeCategoryPatterns. rewrite categoryData_as_doubles, Hinh.
  set (txs := t :: ts) in *.
  split.
  - intros H. apply (Permutation_in _ (sort_by_Permutation _ _)) in H.
    apply in_flat_map in H. destruct H as ([c l] & Hin & Hp).
    apply (Permutation_in _ (entries_Permutation _)) in Hin.
    unfold as_doubles in Hin. apply in_map_iff in Hin.
    destruct Hin as ([c' l'] & E & Hin). simpl in E. injection E as -> <-.
    apply categoryData_entry in Hin. destruct Hin as [-> _].
    exists c. rewrite <- Hrows, <- Hlen.
    unfold Rounded.pattern_of in *. rewrite length_map in *.
    destruct (Nat.ltb_spec (List.length (amounts_of c txs)) 2) as [|Hl]; [destruct Hp|].
    destruct Hp as [<-|[]]. split; [exact Hl|reflexivity].
  - intros (c & Hl & Hp). rewrite <- Hrows in Hp. rewrite <- Hlen in Hl.
    apply (Permutation_in _ (Permutation_sym (sort_by_Permutation _ _))).
    apply in_flat_map. exists (c, map Number (amounts_of c txs)). split.
    + apply (Permutation_in _ (Permutation_sym (entries_Permutation _))).
      unfold as_doubles. apply in_map_iff. exists (c, amounts_of c txs).
      split; [reflexivity|]. apply categoryData_entry. split; [reflexivity|].
      intro E. rewrite E in Hl. simpl in Hl. lia.
    + rewrite Hp. left. reflexivity.
Qed.

Lemma reported_of_keys (gs : list (string * nat)) :
  NoDup (map fst gs) -> NoDup (map fst (flat_map reported_of gs)).
Proof.
  induction gs as [|[c n] gs IH]; simpl; intros H; [constructor|].
  inversion H as [|x xs Hx Hnd]; subst.
  unfold reported_of at 1. simpl.
  destruct (n <? 2)%nat; simpl; [apply IH; exact Hnd|].
  constructor; [|apply IH; exact Hnd].
  intros Hin. apply Hx. clear -Hin.
  induction gs as [|[c' n'] gs IH]; simpl in *; [exact Hin|].
  rewrite map_app, in_app_iff in Hin.
  destruct Hin as [Hin|Hin]; [|right; apply IH; exact Hin].
  left. unfold reported_of in Hin. simpl in Hin.
  destruct (n' <? 2)%nat; simpl in Hin; [destruct Hin|].
  destruct Hin as [Hin|[]]. exact Hin.
Qed.

End Reported.

(** One expense of a category named like a member that every object
    inherits ([constructor], [toString], ...) makes the analyzer return no
    aggregate at all.  Without such a row there is one aggregate for each
    category with two rows or more and none for the others; its mean is the
    sum of the amounts in the order of the rows over their number, its trend
    has six entries, and its confidence is 1 exactly from ten rows on. *)
Theorem patterns_reported
        (pow : Double.double -> Double.double -> Double.double) (tz now : Z)
        (transactions : list Transaction) :
  let out := Rounded.analyzeCategoryPatterns pow tz now (Some transactions) in
  (existsb inherited_label transactions = true -> out = [])
  /\ (existsb inherited_label transactions = false ->
      NoDup (map Rounded.category out)
      /\ (forall c, In c (map Rounded.category out)
                    <-> (2 <= List.length (rows_of c transactions))%nat)
      /\ (forall p, In p out ->
            let rows := rows_of (Rounded.category p) transactions in
            Rounded.avgAmount p
            = (Rounded.sum (map (fun t => Double.Number (amount t)) rows)
               / Double.of_Z (Z.of_nat (List.length rows)))%double
            /\ List.length (Rounded.monthlyTrend p) = 6%nat
            /\ Rounded.confidence p = confidence_of (List.length rows)
            /\ ((Z.of_nat (List.length rows) <= 100000)%Z ->
                (Rounded.confidence p = Double.of_Z 1
                 <-> (10 <= List.length rows)%nat)))).
Proof.
  intros out. split.
  - intros Hinh. subst out. destruct transactions as [|t ts]; [reflexivity|].
    unfold Rounded.analyzeCategoryPatterns.
    rewrite categoryData_as_doubles, Hinh. reflexivity.
  - intros Hinh.
    assert (Hpat : forall p, In p out ->
              exists c, (2 <= List.length (rows_of c transactions))%nat
                        /\ Rounded.category p = c
                        /\ Rounded.pattern_of pow tz now transactions
                             (c, map (fun t => Double.Number (amount t))
                                     (rows_of c transactions))
                           = [p]).
    { intros p Hp. apply (analyze_In pow tz now transactions p Hinh) in Hp.
      destruct Hp as (c & Hl & Hp). exists c. split; [exact Hl|]. split; [|exact Hp].
      unfold Rounded.pattern_of in Hp. rewrite length_map in Hp.
      destruct (Nat.ltb_spec (List.length (rows_of c transactions)) 2); [lia|].
      injection Hp as <-. reflexivity. }
    split; [|split].
    + pose proof (analyze_reported pow tz now transactions) as H.
      rewrite Hinh in H. fold out in H.
      apply (Permutation_map fst) in H. rewrite map_map in H. simpl in H.
      apply (Permutation_NoDup (Permutation_sym H)).
      apply reported_of_keys. apply group_sizes_keys.
    + intros c. split.
      * intros H. apply in_map_iff in H. destruct H as (p & <- & Hp).
        destruct (Hpat p Hp) as (c & Hl & <- & _). exact Hl.
      * intros Hl. apply in_map_iff.
        destruct (Rounded.pattern_of pow tz now transactions
                    (c, map (fun t => Double.Number (amount t)) (rows_of c transactions)))
          as [|p ps] eqn:E.
        { unfold Rounded.pattern_of in E. rewrite length_map in E.
          destruct (Nat.ltb_spec (List.length (rows_of c transactions)) 2); [lia|].
          discriminate. }
        assert (Eps : ps = []).
        { unfold Rounded.pattern_of in E.
          destruct (_ <? 2)%nat; [discriminate|]. injection E as _ <-. reflexivity. }
        subst ps. exists p. split.
        -- unfold Rounded.pattern_of in E. destruct (_ <? 2)%nat; [discriminate|].
           injection E as <-. reflexivity.
        -- apply (analyze_In pow tz now transactions p Hinh). exists c. auto.
    + intros p Hp rows. destruct (Hpat p Hp) as (c & Hl & Hc & E).
      subst rows. rewrite Hc.
      unfold Rounded.pattern_of in E. rewrite length_map in E.
      destruct (Nat.ltb_spec (List.length (rows_of c transactions)) 2); [lia|].
      injection E as <-. simpl.
      unfold Rounded.len. rewrite !length_map.
      split; [reflexivity|]. split; [reflexivity|]. split; [reflexivity|].
      intros Hb. apply confidence_of_one. lia.
Qed.

(** Two rows of a category named [constructor] beside two rows of food:
    no aggregate, not even for the food. *)
Example patterns_lost_to_inherited_name :
  forall pow, Rounded.analyzeCategoryPatterns pow IST may_20 (Some constructors) = [].
Proof. intros pow. reflexivity. Qed.

(** ** Duplicate findings, whatever the identifiers *)

Lemma scan_from_sound (t1 : Transaction) (rest : list Transaction) :
  forall (dups : list Duplicate) (checked : list string),
    let dups' := fst (scan_from t1 rest (dups, checked)) in
    (forall d, In d dups' ->
       In d dups
       \/ exists t2, In t2 rest /\ is_duplicate t1 t2 = true /\ d = duplicate_of t1 t2)
    /\ (List.length dups'
        <= List.length dups + List.length (filter (is_duplicate t1) rest))%nat.
Proof.
  induction rest as [|t2 rest IH]; intros dups checked; simpl.
  - split; [auto|lia].
  - destruct (existsb (String.eqb (pair_key t1 t2)) checked).
    + destruct (IH dups checked) as [H1 H2]. split.
      * intros d Hd. destruct (H1 d Hd) as [|(t & Ht & Hdup & ->)]; [auto|].
        right. exists t. auto.
      * destruct (is_duplicate t1 t2); simpl; lia.
    + destruct (is_duplicate t1 t2) eqn:E.
      * destruct (IH (dups ++ [duplicate_of t1 t2]) (pair_key t1 t2 :: checked))
          as [H1 H2]. split.
        -- intros d Hd. destruct (H1 d Hd) as [Hin|(t & Ht & Hdup & ->)].
           ++ apply in_app_or in Hin. destruct Hin as [|[<-|[]]]; [auto|].
              right. exists t2. auto.
           ++ right. exists t. auto.
        -- rewrite length_app in H2. simpl in *. lia.
      * destruct (IH dups checked) as [H1 H2]. split.
        -- intros d Hd. destruct (H1 d Hd) as [|(t & Ht & Hdup & ->)]; [auto|].
           right. exists t. auto.
        -- lia.
Qed.

Lemma scan_all_sound (transactions : list Transaction) :
  forall (dups : list Duplicate) (checked : list string),
    let dups' := fst (scan_all transactions (dups, checked)) in
    (forall d, In d dups' ->
       In d dups
       \/ exists p, In p (all_pairs transactions) /\ close_pair p = true
                    /\ d = duplicate_of (fst p) (snd p))
    /\ (List.length dups'
        <= List.length dups + List.length (filter close_pair (all_pairs transactions)))%nat.
Proof.
  induction transactions as [|t1 rest IH]; intros dups checked; simpl.
  - split; [auto|lia].
  - pose proof (scan_from_sound t1 rest dups checked) as Hfrom. cbv zeta in Hfrom.
    destruct (scan_from t1 rest (dups, checked)) as [dups1 checked1].
    simpl in Hfrom. destruct Hfrom as [F1 F2].
    destruct (IH dups1 checked1) as [H1 H2]. split.
    + intros d Hd. destruct (H1 d Hd) as [Hin|(p & Hp & Hc & ->)].
      * destruct (F1 d Hin) as [|(t2 & Ht2 & Hdup & ->)]; [auto|].
        right. exists (t1, t2). split; [|split; [|reflexivity]].
        -- apply in_or_app. left. apply in_map. exact Ht2.
        -- rewrite <- is_duplicate_close_pair. exact Hdup.
      * right. exists p. split; [|auto]. apply in_or_app. right. exact Hp.
    + rewrite filter_app, length_app.
      assert (E : List.length (filter close_pair (map (pair t1) rest))
                  = List.length (filter (is_duplicate t1) rest)).
      { clear. induction rest as [|t2 rest IH]; [reflexivity|].
        change (filter close_pair (map (pair t1) (t2 :: rest)))
          with (if close_pair (t1, t2)
                then (t1, t2) :: filter close_pair (map (pair t1) rest)
                else filter close_pair (map (pair t1) rest)).
        change (filter (is_duplicate t1) (t2 :: rest))
          with (if is_duplicate t1 t2
                then t2 :: filter (is_duplicate t1) rest
                else filter (is_duplicate t1) rest).
        rewrite <- is_duplicate_close_pair.
        destruct (is_duplicate t1 t2); simpl List.length; rewrite IH; reflexivity. }
      rewrite E. lia.
Qed.

Lemma all_pairs_length (transactions : list Transaction) :
  (2 * List.length (all_pairs transactions)
   = List.length transactions * (List.length transactions - 1))%nat.
Proof.
  induction transactions as [|t rest IH]; [reflexivity|].
  simpl all_pairs. rewrite length_app, length_map. simpl List.length.
  destruct rest as [|t' rest']; [reflexivity|].
  simpl List.length in *. nia.
Qed.

(** Whatever the identifiers, every duplicate finding is the pair of a row
    and a later row with the same amount, the same kind and creation times
    more than 0 and less than 60 minutes apart, and there are no more
    findings than such pairs: at most n (n - 1) / 2 for n rows. *)
Theorem duplicates_only_close_pairs (transactions : list Transaction) :
  (forall d, In d (findDuplicateTransactions transactions) ->
     exists t1 t2, In (t1, t2) (all_pairs transactions)
                   /\ close_pair (t1, t2) = true /\ d = duplicate_of t1 t2)
  /\ (List.length (findDuplicateTransactions transactions)
      <= List.length (filter close_pair (all_pairs transactions)))%nat
  /\ (2 * List.length (findDuplicateTransactions transactions)
      <= List.length transactions * (List.length transactions - 1))%nat.
Proof.
  unfold findDuplicateTransactions.
  destruct (scan_all_sound transactions [] []) as [H1 H2]. simpl in H2.
  split; [|split; [exact H2|]].
  - intros d Hd. destruct (H1 d Hd) as [[]|([t1 t2] & Hp & Hc & ->)].
    exists t1, t2. auto.
  - pose proof (filter_length_le close_pair (all_pairs transactions)).
    pose proof (all_pairs_length transactions). lia.
Qed.

(** ** The groups of the recurring detector *)

Lemma add_to_groups_Permutation (groups : list (list Transaction)) (txn : Transaction) :
  Permutation (List.concat (add_to_groups groups txn)) (List.concat groups ++ [txn]).
Proof.
  induction groups as [|g groups IH]; simpl; [reflexivity|].
  destruct g as [|t g'].
  - simpl. exact IH.
  - destruct (group_key_eqb t txn).
    + simpl. rewrite <- !app_assoc. simpl.
      apply Permutation_cons; [reflexivity|]. apply Permutation_app_head.
      apply (Permutation_app_comm [txn]).
    + simpl. rewrite <- app_assoc. apply Permutation_cons; [reflexivity|].
      apply Permutation_app_head. exact IH.
Qed.

Lemma merchantGroups_Permutation (transactions : list Transaction) :
  Permutation (List.concat (merchantGroups transactions)) transactions.
Proof.
  unfold merchantGroups.
  assert (H : forall gs, Permutation (List.concat (fold_left add_to_groups transactions gs))
                                     (List.concat gs ++ transactions)).
  { induction transactions as [|t ts IH]; intros gs; simpl.
    - rewrite app_nil_r. reflexivity.
    - rewrite IH, add_to_groups_Permutation, <- app_assoc. reflexivity. }
  apply (H []).
Qed.

Lemma suggestion_of_short (tz : Z) (g : list Transaction) :
  (2 * List.length (suggestion_of tz g) <= List.length g)%nat
  /\ forall r, In r (suggestion_of tz g) ->
       (2 <= List.length g)%nat
       /\ is_active r = true /\ auto_create r = false
       /\ exists t, In t g /\ rule_amount r = amount t
                    /\ start_date r = transaction_date t.
Proof.
  unfold suggestion_of.
  destruct (Nat.ltb_spec (List.length g) 2) as [|H2]; [split; [simpl; lia|intros r []]|].
  destruct (day_diffs _ _) as [total count].
  pose proof (sort_by_Permutation by_date g) as Hp.
  destruct (sort_by by_date g) as [|first rest].
  - split; [simpl; lia | intros r []].
  - split; [simpl; lia|]. intros r [<-|[]]. simpl.
    repeat split; try assumption.
    exists first. split; [|auto].
    apply (Permutation_in _ Hp). left. reflexivity.
Qed.

(** A suggestion needs a group of two rows: there are at most half as many
    suggestions as rows; each carries the amount and the date of one of the
    rows, and is active with automatic creation off. *)
Theorem suggestions_need_two_rows (tz : Z) (transactions : list Transaction) :
  let out := detectRecurringTransactions tz (Some transactions) in
  (2 * List.length out <= List.length transactions)%nat
  /\ (forall r, In r out ->
        is_active r = true /\ auto_create r = false
        /\ exists t, In t transactions
                     /\ rule_amount r = amount t
                     /\ start_date r = transaction_date t).
Proof.
  intros out. unfold out, detectRecurringTransactions. split.
  - rewrite <- (Permutation_length (merchantGroups_Permutation transactions)).
    induction (merchantGroups transactions) as [|g gs IH]; simpl; [lia|].
    rewrite !length_app. destruct (suggestion_of_short tz g) as [H _]. lia.
  - intros r Hr. apply in_flat_map in Hr. destruct Hr as (g & Hg & Hr).
    destruct (suggestion_of_short tz g) as [_ H].
    destruct (H r Hr) as (_ & Ha & Hc & t & Ht & Hamt & Hdate).
    split; [exact Ha|]. split; [exact Hc|].
    exists t. split; [|split; assumption].
    apply (Permutation_in _ (merchantGroups_Permutation transactions)).
    apply in_concat. exists g. split; assumption.
Qed.

(** ** The frequency of a group *)

Lemma insert_by_date_sorted (x : Transaction) (l : list Transaction) :
  StronglySorted (fun a b => (date_of a <= date_of b)%Z) l ->
  StronglySorted (fun a b => (date_of a <= date_of b)%Z) (insert_by by_date x l).
Proof.
  induction 1 as [|y l Hs IH Hy]; simpl.
  - repeat constructor.
  - unfold by_date at 1. fold (date_of y). fold (date_of x).
    destruct (Z.ltb_spec (date_of y) (date_of x)) as [E|E].
    + constructor; [exact IH|].
      apply Forall_forall. intros z Hz.
      apply (Permutation_in _ (insert_by_Permutation _ _ _)) in Hz.
      destruct Hz as [<-|Hz]; [lia|].
      rewrite Forall_forall in Hy. apply Hy. exact Hz.
    + constructor; [constructor; assumption|].
      constructor; [exact E|].
      apply Forall_forall. intros z Hz. rewrite Forall_forall in Hy.
      specialize (Hy z Hz). lia.
Qed.

Lemma sort_by_date_sorted (l : list Transaction) :
  StronglySorted (fun a b => (date_of a <= date_of b)%Z) (sort_by by_date l).
Proof.
  induction l as [|x l IH]; simpl; [constructor|].
  apply insert_by_date_sorted. exact IH.
Qed.

Lemma last_cons {A : Type} (l : list A) : forall x y : A, last (y :: l) x = last l y.
Proof.
  induction l as [|z l IH]; intros x y; [reflexivity|].
  change (last (y :: z :: l) x) with (last (z :: l) x).
  rewrite !IH. reflexivity.
Qed.

Lemma last_in {A : Type} (l : list A) (x : A) : In (last l x) (x :: l).
Proof.
  revert x. induction l as [|y l IH]; intros x; [left; reflexivity|].
  rewrite last_cons. right. apply IH.
Qed.

(** Over rows in the order of their dates the gaps add up to the span from
    the first to the last. *)
Lemma day_diffs_span (l : list Transaction) : forall (x : Transaction) (a c : Q),
  StronglySorted (fun a b => (date_of a <= date_of b)%Z) (x :: l) ->
  fst (day_diffs (x :: l) (a, c))
  == a + inject_Z (date_of (last l x) - date_of x) / inject_Z msPerDay
  /\ snd (day_diffs (x :: l) (a, c)) == c + count l.
Proof.
  induction l as [|y l IH]; intros x a c Hs.
  - simpl. unfold count. simpl. rewrite Z.sub_diag. unfold Qdiv.
    change (inject_Z 0) with 0. split; ring.
  - inversion Hs as [|? ? Hs' Hx]; subst.
    assert (Hxy : (date_of x <= date_of y)%Z).
    { rewrite Forall_forall in Hx. apply Hx. left. reflexivity. }
    change (day_diffs (x :: y :: l) (a, c))
      with (day_diffs (y :: l)
              (a + Qabs (inject_Z (date_of y - date_of x)
                         / inject_Z (1000 * 60 * 60 * 24)), c + 1)).
    destruct (IH y (a + Qabs (inject_Z (date_of y - date_of x)
                              / inject_Z (1000 * 60 * 60 * 24))) (c + 1) Hs')
      as [H1 H2].
    rewrite H1, H2, count_cons, (last_cons l x y).
    change (inject_Z (1000 * 60 * 60 * 24)) with (inject_Z msPerDay).
    assert (Hpos : 0 <= inject_Z (date_of y - date_of x) / inject_Z msPerDay).
    { apply Qle_shift_div_l; [reflexivity|]. rewrite Qmult_0_l.
      change 0 with (inject_Z 0). rewrite <- Zle_Qle. lia. }
    rewrite (Qabs_pos _ Hpos).
    split; [|ring].
    unfold Qdiv. rewrite <- Qplus_assoc, <- Qmult_plus_distr_l, <- inject_Z_plus.
    replace (date_of y - date_of x + (date_of (last l y) - date_of y))%Z
      with (date_of (last l y) - date_of x)%Z by lia.
    reflexivity.
Qed.

Lemma classify_Qeq (x y : Q) : x == y -> classify x = classify y.
Proof.
  intros E. unfold classify, Qlt_bool.
  rewrite !(Qleb_comp _ _ (Qeq_refl _) x y E). reflexivity.
Qed.

(** The body of the loop over the groups.  A group of two rows or more
    gives one suggestion; its frequency is read off the span in days from
    the earliest to the latest date of the group divided by the number of
    gaps, whatever the single gaps are; it starts on the earliest date and
    its next occurrence is counted from the latest. *)
Theorem frequency_from_span (tz : Z) (group : list Transaction) :
  (2 <= List.length group)%nat ->
  exists r earliest latest,
    suggestion_of tz group = [r]
    /\ In earliest group /\ In latest group
    /\ (forall t, In t group -> (date_of earliest <= date_of t <= date_of latest)%Z)
    /\ start_date r = transaction_date earliest
    /\ frequency r
       = classify (inject_Z (date_of latest - date_of earliest) / inject_Z msPerDay
                   / inject_Z (Z.of_nat (List.length group) - 1))
    /\ next_occurrence r
       = toISODateString (getNextOccurrence tz (date_of latest) (frequency r)).
Proof.
  intros H2.
  pose proof (sort_by_Permutation by_date group) as Hp.
  pose proof (sort_by_date_sorted group) as Hs.
  assert (Hlen : List.length (sort_by by_date group) = List.length group)
    by (apply Permutation_length; exact Hp).
  destruct (sort_by by_date group) as [|first rest] eqn:Esort.
  { simpl in Hlen. lia. }
  destruct (day_diffs_span rest first 0 0 Hs) as [Htot Hcnt].
  set (lastT := last rest first).
  assert (Hlast_in : In lastT (first :: rest)).
  { apply last_in. }
  exists (mkRule (or_default (merchant first) "Unknown") (amount first)
                 (classify (fst (day_diffs (first :: rest) (0, 0))
                            / snd (day_diffs (first :: rest) (0, 0))))
                 (transaction_date first)
                 (toISODateString
                    (getNextOccurrence tz (parse (transaction_date lastT))
                       (classify (fst (day_diffs (first :: rest) (0, 0))
                                  / snd (day_diffs (first :: rest) (0, 0))))))
                 true false (account_id first) (category_id first)),
         first, lastT.
  split; [|split; [|split; [|split; [|split; [reflexivity|split; [|reflexivity]]]]]].
  - unfold suggestion_of.
    destruct (Nat.ltb_spec (List.length group) 2); [lia|].
    rewrite Esort. destruct (day_diffs (first :: rest) (0, 0)) as [total cnt].
    rewrite last_cons. reflexivity.
  - apply (Permutation_in _ Hp). left. reflexivity.
  - apply (Permutation_in _ Hp). exact Hlast_in.
  - intros t Ht. apply (Permutation_in _ (Permutation_sym Hp)) in Ht.
    inversion Hs as [|? ? Hs' Hfirst]; subst. rewrite Forall_forall in Hfirst.
    split.
    + destruct Ht as [<-|Ht]; [lia|]. apply Hfirst. exact Ht.
    + subst lastT. clear - Hs Ht. revert first Hs Ht.
      induction rest as [|y rest IH]; intros first Hs Ht.
      * destruct Ht as [<-|[]]. simpl. lia.
      * inversion Hs as [|? ? Hs' Hf]; subst.
        rewrite last_cons.
        destruct Ht as [<-|Ht].
        -- rewrite Forall_forall in Hf. apply Hf. apply last_in.
        -- apply IH; assumption.
  - simpl. apply classify_Qeq. rewrite Htot, Hcnt, !Qplus_0_l.
    simpl List.length in Hlen. unfold count, lastT.
    replace (Z.of_nat (List.length group) - 1)%Z with (Z.of_nat (List.length rest))
      by lia.
    reflexivity.
Qed.

Lemma frequency_from_span_witness :
  exists r earliest latest,
    suggestion_of IST irregular = [r]
    /\ In earliest irregular /\ In latest irregular
    /\ (forall t, In t irregular -> (date_of earliest <= date_of t <= date_of latest)%Z)
    /\ start_date r = transaction_date earliest
    /\ frequency r
       = classify (inject_Z (date_of latest - date_of earliest) / inject_Z msPerDay
                   / inject_Z (Z.of_nat (List.length irregular) - 1))
    /\ next_occurrence r
       = toISODateString (getNextOccurrence IST (date_of latest) (frequency r)).
Proof.
  apply (frequency_from_span IST irregular).
  simpl. lia.
Defined.

(** Gaps of 1 and 59 days give the frequency of two gaps of 30 days. *)
Example irregular_is_monthly :
  map frequency (detectRecurringTransactions IST (Some irregular)) = [monthly].
Proof. vm_compute. reflexivity. Qed.

(** ** Steps of the calendar *)

Section CalendarSteps.
Local Open Scope Z_scope.

Lemma ISODate_eqb_eq (a b : ISODate) : ISODate_eqb a b = true <-> a = b.
Proof.
  destruct a as [a1 a2 a3], b as [b1 b2 b3]. unfold ISODate_eqb. simpl.
  rewrite !andb_true_iff, !Z.eqb_eq. split.
  - intros [[-> ->] ->]. reflexivity.
  - intros H. injection H as -> -> ->. auto.
Qed.

Lemma is_calendar_date_spec (dt : ISODate) :
  is_calendar_date dt = true ->
  1 <= month dt <= 12
  /\ civil_from_days (days_from_civil (year dt) (month dt) (day dt)) = dt.
Proof.
  unfold is_calendar_date. rewrite !andb_true_iff, ISODate_eqb_eq, !Z.leb_le. tauto.
Qed.

Lemma days_from_civil_day (y m d : Z) :
  days_from_civil y m d = days_from_civil y m 1 + d - 1.
Proof. unfold days_from_civil. destruct (m <=? 2), (m >? 2); lia. Qed.

Lemma MakeDay_civil (y m d : Z) :
  MakeDay y m d = days_from_civil (y + m / 12) (m mod 12 + 1) d.
Proof. unfold MakeDay. rewrite (days_from_civil_day _ _ d). lia. Qed.

Lemma MakeDay_same_month (y m d : Z) :
  1 <= m <= 12 -> MakeDay y (m - 1) d = days_from_civil y m d.
Proof.
  intros H. rewrite MakeDay_civil.
  rewrite (Z.div_small (m - 1) 12), (Z.mod_small (m - 1) 12) by lia.
  f_equal; lia.
Qed.

Lemma MakeDay_add (y m d n : Z) : MakeDay y m (d + n) = MakeDay y m d + n.
Proof. unfold MakeDay. lia. Qed.

Lemma Day_MakeDate (D t : Z) : 0 <= t < msPerDay -> Day (MakeDate D t) = D.
Proof.
  intros H. unfold Day, MakeDate. unfold msPerDay in *.
  rewrite Z.add_comm, Z.div_add by lia. rewrite Z.div_small by lia. lia.
Qed.

Lemma LocalTime_UTC (tz t : Z) : LocalTime tz (UTC tz t) = t.
Proof. unfold LocalTime, UTC. lia. Qed.

(** The local fields of a date-only value, from UTC eastwards. *)
Lemma local_fields (tz : Z) (dt : ISODate) :
  0 <= tz < 1440 -> is_calendar_date dt = true ->
  getFullYear tz (parse dt) = year dt
  /\ getMonth tz (parse dt) = month dt - 1
  /\ getDate tz (parse dt) = day dt
  /\ TimeWithinDay (LocalTime tz (parse dt)) = tz * msPerMinute.
Proof.
  intros Htz Hdt. apply is_calendar_date_spec in Hdt. destruct Hdt as [_ Hrt].
  unfold getFullYear, getMonth, getDate, parse.
  destruct (local_day_of_midnight tz (days_from_civil (year dt) (month dt) (day dt)) Htz)
    as [Hd Ht].
  rewrite Hd, Ht, Hrt. auto.
Qed.

Lemma UTC_of_local_time (tz D : Z) : UTC tz (MakeDate D (tz * msPerMinute)) = MakeDate D 0.
Proof. unfold UTC, MakeDate. lia. Qed.

End CalendarSteps.

(** From UTC eastwards, the daily, weekly and biweekly steps from a
    calendar date add exactly 1, 7 and 14 days. *)
Theorem day_steps_exact (tz : Z) (dt : ISODate) (f : Frequency) (n : Z) :
  (0 <= tz < 1440)%Z -> is_calendar_date dt = true ->
  period_days f = Some n ->
  getNextOccurrence tz (parse dt) f = (parse dt + n * msPerDay)%Z
  /\ toISODateString (getNextOccurrence tz (parse dt) f)
     = civil_from_days (days_from_civil (year dt) (month dt) (day dt) + n).
Proof.
  intros Htz Hdt Hf.
  destruct (local_fields tz dt Htz Hdt) as (Hy & Hm & Hd & Ht).
  pose proof (is_calendar_date_spec dt Hdt) as [Hmonth _].
  assert (Hadd : addDays tz (parse dt) n = (parse dt + n * msPerDay)%Z).
  { unfold addDays, setDate. rewrite Hy, Hm, Hd, Ht, UTC_of_local_time.
    rewrite MakeDay_add, MakeDay_same_month by exact Hmonth.
    unfold parse, MakeDate. lia. }
  assert (Hnext : getNextOccurrence tz (parse dt) f = addDays tz (parse dt) n).
  { destruct f; simpl in Hf; try discriminate; injection Hf as <-; reflexivity. }
  rewrite Hnext, Hadd. split; [reflexivity|].
  unfold toISODateString, parse. f_equal.
  replace (MakeDate (days_from_civil (year dt) (month dt) (day dt)) 0 + n * msPerDay)%Z
    with (MakeDate (days_from_civil (year dt) (month dt) (day dt) + n) 0)
    by (unfold MakeDate; lia).
  apply Day_MakeDate. unfold msPerDay. lia.
Qed.

Lemma day_steps_exact_witness :
  toISODateString (getNextOccurrence IST (parse (mkDate 2024 2 23)) weekly)
  = mkDate 2024 3 1.
Proof.
  destruct (day_steps_exact IST (mkDate 2024 2 23) weekly 7) as [_ H].
  - unfold IST. lia.
  - vm_compute. reflexivity.
  - reflexivity.
  - rewrite H. vm_compute. reflexivity.
Defined.

(** From UTC eastwards, the monthly, quarterly and yearly steps from a
    calendar date keep the day of the month, 1, 3 and 12 months later,
    when that day exists in the month reached. *)
Theorem month_steps_keep_the_day (tz : Z) (dt : ISODate) (f : Frequency) (k : Z) :
  (0 <= tz < 1440)%Z -> is_calendar_date dt = true ->
  period_months f = Some k ->
  is_calendar_date (months_later k dt) = true ->
  toISODateString (getNextOccurrence tz (parse dt) f) = months_later k dt.
Proof.
  intros Htz Hdt Hf Htarget.
  destruct (local_fields tz dt Htz Hdt) as (Hy & Hm & Hd & Ht).
  apply is_calendar_date_spec in Htarget. destruct Htarget as [_ Hrt].
  assert (Hnext : getNextOccurrence tz (parse dt) f = addMonths tz (parse dt) k).
  { destruct f; simpl in Hf; try discriminate; injection Hf as <-; reflexivity. }
  rewrite Hnext. unfold addMonths, setMonth.
  rewrite Hy, Hm, Hd, Ht, UTC_of_local_time, MakeDay_civil.
  unfold toISODateString. rewrite Day_MakeDate by (unfold msPerDay; lia).
  exact Hrt.
Qed.

Lemma month_steps_keep_the_day_witness :
  toISODateString (getNextOccurrence IST (parse (mkDate 2024 10 30)) quarterly)
  = mkDate 2025 1 30.
Proof.
  assert (Htz : (0 <= IST < 1440)%Z) by (unfold IST; lia).
  assert (Hdt : is_calendar_date (mkDate 2024 10 30) = true) by (vm_compute; reflexivity).
  assert (Hf : period_months quarterly = Some 3%Z) by reflexivity.
  assert (Ht : is_calendar_date (months_later 3 (mkDate 2024 10 30)) = true)
    by (vm_compute; reflexivity).
  rewrite (month_steps_keep_the_day IST (mkDate 2024 10 30) quarterly 3 Htz Hdt Hf Ht).
  vm_compute. reflexivity.
Defined.

(** ** EMI reminders *)

Section EmiReminders.
Local Open Scope Z_scope.










End EmiReminders.



(** ** The scheduler of the recurring rules *)

Lemma check_rule_step (tz now : Z) (insert_error : CreatedTransaction -> bool)
      (result : RecurringTransactionCheck) (writes : list Write) (rule : StoredRule) :
  check_rule tz now insert_error (result, writes) rule
  = if expired rule then (result, writes ++ writes_for tz now insert_error rule)
    else
      (mkCheck (rulesTriggered result ++ [rule])
         (transactionsCreated result
          + (if auto_create (stored rule) && negb (insert_error (created_for now rule))
             then 1 else 0))
         (failedCreations result
          + (if auto_create (stored rule) && insert_error (created_for now rule)
             then 1 else 0)),
       writes ++ writes_for tz now insert_error rule).
Proof.
  unfold check_rule, writes_for. destruct (expired rule); [reflexivity|].
  destruct (auto_create (stored rule)); simpl.
  - destruct (insert_error (created_for now rule)); simpl;
      rewrite <- ?app_assoc; f_equal; f_equal; lia.
  - destruct result. simpl. f_equal. f_equal; lia.
Qed.

Lemma check_rules_from (tz now : Z) (insert_error : CreatedTransaction -> bool)
      (rules : list StoredRule) :
  forall (result : RecurringTransactionCheck) (writes : list Write),
    fold_left (check_rule tz now insert_error) rules (result, writes)
    = (mkCheck
         (rulesTriggered result ++ filter (fun r => negb (expired r)) rules)
         (transactionsCreated result
          + List.length (filter (fun r => negb (insert_error (created_for now r)))
                                (to_create rules)))
         (failedCreations result
          + List.length (filter (fun r => insert_error (created_for now r))
                                (to_create rules))),
       writes ++ flat_map (writes_for tz now insert_error) rules).
Proof.
  induction rules as [|rule rules IH]; intros result writes.
  - simpl. rewrite !app_nil_r, !Nat.add_0_r. destruct result. reflexivity.
  - cbn [fold_left]. rewrite check_rule_step.
    unfold to_create. cbn [filter flat_map].
    destruct (expired rule) eqn:Ex; cbn [negb andb].
    + rewrite IH. rewrite <- app_assoc. reflexivity.
    + rewrite IH. cbn [rulesTriggered transactionsCreated failedCreations].
      rewrite <- !app_assoc. cbn [app].
      destruct (auto_create (stored rule)); cbn [andb];
        [destruct (insert_error (created_for now rule)) eqn:Ei; cbn [negb]|];
        cbn [filter]; rewrite ?Ei; cbn [negb List.length];
        f_equal; f_equal; unfold to_create; lia.
Qed.

Lemma inserts_of_writes (tz now : Z) (insert_error : CreatedTransaction -> bool)
      (rules : list StoredRule) :
  List.length (filter is_insert (flat_map (writes_for tz now insert_error) rules))
  = List.length (filter (fun r => negb (insert_error (created_for now r)))
                        (to_create rules)).
Proof.
  induction rules as [|rule rules IH]; [reflexivity|].
  cbn [flat_map]. rewrite filter_app, length_app, IH.
  unfold to_create, writes_for. cbn [filter].
  destruct (expired rule); cbn [negb andb filter is_insert List.length]; [reflexivity|].
  destruct (auto_create (stored rule)); cbn [andb]; [|reflexivity].
  destruct (insert_error (created_for now rule)) eqn:Ei;
    cbn [negb filter app is_insert List.length]; rewrite ?Ei; reflexivity.
Qed.

Lemma created_and_failed (insert_error : CreatedTransaction -> bool) (now : Z)
      (l : list StoredRule) :
  (List.length (filter (fun r => negb (insert_error (created_for now r))) l)
   + List.length (filter (fun r => insert_error (created_for now r)) l)
   = List.length l)%nat.
Proof.
  induction l as [|r l IH]; [reflexivity|].
  cbn [filter]. destruct (insert_error (created_for now r)); cbn [negb List.length]; lia.
Qed.

(** The run over the due rules.  The rules triggered are those that are not
    expired, as they were read.  One transaction is created or fails for
    each of them that has automatic creation, and the count of the created
    ones is the number of rows inserted; each row inserted is dated today,
    whatever the date the rule was due.  Every triggered rule is advanced by
    one period from the date it was due, and only those; the expired rules
    are deactivated, and only those. *)
Theorem scheduler_accounting (tz now : Z) (insert_error : CreatedTransaction -> bool)
        (rules : list StoredRule) :
  let run := checkAndCreateRecurringTransactions tz now insert_error (Some rules) in
  let result := fst run in
  let writes := snd run in
  rulesTriggered result = filter (fun r => negb (expired r)) rules
  /\ (transactionsCreated result + failedCreations result
      = List.length (to_create rules))%nat
  /\ transactionsCreated result = List.length (filter is_insert writes)
  /\ (forall row, In (Insert row) writes ->
        created_date row = toISODateString now
        /\ insert_error row = false
        /\ exists rule, In rule (to_create rules) /\ row = created_for now rule)
  /\ (forall id next, In (Advance id next) writes <->
        exists rule, In rule rules /\ expired rule = false /\ id = stored_id rule
                     /\ next = toISODateString
                                 (getNextOccurrence tz
                                    (parse (next_occurrence (stored rule)))
                                    (frequency (stored rule))))
  /\ (forall id, In (Deactivate id) writes <->
        exists rule, In rule rules /\ expired rule = true /\ id = stored_id rule).
Proof.
  intros run result writes. subst result writes run.
  unfold checkAndCreateRecurringTransactions. rewrite check_rules_from.
  cbn [fst snd rulesTriggered transactionsCreated failedCreations app Nat.add].
  split; [reflexivity|]. split; [apply created_and_failed|].
  split; [symmetry; apply inserts_of_writes|].
  split; [|split].
  - intros row Hin. apply in_flat_map in Hin. destruct Hin as (rule & Hr & Hw).
    unfold writes_for in Hw.
    destruct (expired rule) eqn:Ex; [destruct Hw as [Hw|[]]; discriminate|].
    apply in_app_or in Hw. destruct Hw as [Hw|[Hw|[]]]; [|discriminate].
    destruct (auto_create (stored rule)) eqn:Ea; cbn [andb] in Hw; [|destruct Hw].
    destruct (insert_error (created_for now rule)) eqn:Ei; cbn [negb] in Hw;
      [destruct Hw|].
    destruct Hw as [Hw|[]]. injection Hw as <-.
    split; [reflexivity|]. split; [exact Ei|].
    exists rule. split; [|reflexivity].
    unfold to_create. apply filter_In. rewrite Ex, Ea. auto.
  - intros id next. rewrite in_flat_map. split.
    + intros (rule & Hr & Hw). unfold writes_for in Hw.
      destruct (expired rule) eqn:Ex; [destruct Hw as [Hw|[]]; discriminate|].
      apply in_app_or in Hw. destruct Hw as [Hw|[Hw|[]]].
      * destruct (_ && _); [destruct Hw as [Hw|[]]; discriminate | destruct Hw].
      * injection Hw as <- <-. exists rule. auto.
    + intros (rule & Hr & Ex & -> & ->). exists rule. split; [exact Hr|].
      unfold writes_for. rewrite Ex. apply in_or_app. right. left. reflexivity.
  - intros id. rewrite in_flat_map. split.
    + intros (rule & Hr & Hw). unfold writes_for in Hw.
      destruct (expired rule) eqn:Ex.
      * destruct Hw as [Hw|[]]. injection Hw as <-. exists rule. auto.
      * apply in_app_or in Hw. destruct Hw as [Hw|[Hw|[]]]; [|discriminate].
        destruct (_ && _); [destruct Hw as [Hw|[]]; discriminate | destruct Hw].
    + intros (rule & Hr & Ex & ->). exists rule. split; [exact Hr|].
      unfold writes_for. rewrite Ex. left. reflexivity.
Qed.

(** A monthly rule due on 1 February, met on 20 May: one transaction dated
    20 May, and the rule moves to 1 March, so that it is due again on the
    next run. *)
Example scheduler_catches_up_one_period_a_run :
  let rule := stored_netflix "r1" (mkDate 2024 2 1) monthly true None in
  snd (checkAndCreateRecurringTransactions IST may_20 (fun _ => false) (Some [rule]))
  = [Insert (mkCreated "acc" None 499 "Netflix" (mkDate 2024 5 20) "r1");
     Advance "r1" (mkDate 2024 3 1)].
Proof. vm_compute. reflexivity. Qed.

(** A rule due after its end date is deactivated, and nothing is created
    for it. *)
Example scheduler_deactivates_expired :
  let rule := stored_netflix "r2" (mkDate 2024 5 1) monthly true (Some (mkDate 2024 4 30)) in
  checkAndCreateRecurringTransactions IST may_20 (fun _ => false) (Some [rule])
  = (mkCheck [] 0 0, [Deactivate "r2"]).
Proof. vm_compute. reflexivity. Qed.
